(** * AD-4826A serial protocol: frame codec, exchange and device operations

    A shallow embedding of [ad4826.py] (class [AD4826AController]).

    - Python [bytes] are lists of [Byte.byte].
    - Python [str] are lists of Unicode code points ([N]); a character is
      ASCII when its code point is below 128.
    - [raise] is modelled by the left injection of a sum, [None] by [None].
    - The serial port is an abstract state with a write and a read
      operation (class [Serial]); the controller threads a [world] made of
      the port, the log of the frames written to it and the lines printed. *)

From Stdlib Require Import Strings.Byte Strings.String Strings.Ascii Init.Decimal.
From Stdlib Require Import List NArith ZArith Bool Lia.
From Stdlib Require Import Numbers.DecimalN.
Import ListNotations.
Local Open Scope list_scope.

(** ** Data *)

Definition bytes := list Byte.byte.
Definition char := N.
Definition pystr := list char.

(** A string literal of the source, as a list of code points. *)
Definition lit (s : string) : pystr :=
  map N_of_ascii (list_ascii_of_string s).

Fixpoint pystr_eqb (a b : pystr) : bool :=
  match a, b with
  | [], [] => true
  | x :: a', y :: b' => N.eqb x y && pystr_eqb a' b'
  | _, _ => false
  end.

(** The exceptions the controller can raise.  [ValueError] is the one of
    line 48 (command code longer than 8 characters); [UnicodeEncodeError] is
    raised by [str.encode('ascii')]. *)
Inductive exception : Type :=
| ValueError
| UnicodeEncodeError.

Definition result (A : Type) : Type := (exception + A)%type.

Definition ok {A} (a : A) : result A := inr a.
Definition throw {A} (e : exception) : result A := inl e.
Definition rbind {A B} (r : result A) (k : A -> result B) : result B :=
  match r with
  | inl e => inl e
  | inr a => k a
  end.

Declare Scope result_scope.
Delimit Scope result_scope with result.
Notation "'let*' x ':=' r 'in' k" := (rbind r (fun x => k))
  (at level 10, x name, r at level 100, k at level 200) : result_scope.

(** A Python float: a finite dyadic number [(-1)^sign * m * 2^e], an
    infinity or a NaN.  Every binary64 value has this shape. *)
Inductive pyfloat : Type :=
| Finite (sign : bool) (m : N) (e : Z)
| Inf (sign : bool)
| NaN.

(** ** Python built-ins used by the controller *)

(** [l[lo:hi]] with Python's treatment of negative and out-of-range bounds. *)
Definition norm_index (len i : Z) : Z :=
  if (i <? 0)%Z then Z.max 0 (i + len) else Z.min i len.

Definition slice {A} (lo hi : Z) (l : list A) : list A :=
  let n := Z.of_nat (length l) in
  let a := norm_index n lo in
  let b := norm_index n hi in
  firstn (Z.to_nat (b - a)) (skipn (Z.to_nat a) l).

(** [s.encode('ascii')]: raises on the first character outside ASCII. *)
Fixpoint encode_ascii (s : pystr) : result bytes :=
  match s with
  | [] => ok []
  | c :: s' =>
      if (c <? 128)%N then
        match Byte.of_N c with
        | Some b => rbind (encode_ascii s') (fun bs => ok (b :: bs))
        | None => throw UnicodeEncodeError
        end
      else throw UnicodeEncodeError
  end.

(** [bs.decode('ascii', errors='ignore')]: bytes outside ASCII are skipped. *)
Fixpoint decode_ascii_ignore (bs : bytes) : pystr :=
  match bs with
  | [] => []
  | b :: bs' =>
      if (Byte.to_N b <? 128)%N
      then Byte.to_N b :: decode_ascii_ignore bs'
      else decode_ascii_ignore bs'
  end.

(** [s.ljust(width, fill)]. *)
Definition ljust (width : nat) (fill : char) (s : pystr) : pystr :=
  s ++ repeat fill (width - length s).

(** Decimal digits of a natural number, most significant first. *)
Fixpoint uint_chars (u : Decimal.uint) : pystr :=
  match u with
  | Nil => []
  | D0 u' => 48%N :: uint_chars u'
  | D1 u' => 49%N :: uint_chars u'
  | D2 u' => 50%N :: uint_chars u'
  | D3 u' => 51%N :: uint_chars u'
  | D4 u' => 52%N :: uint_chars u'
  | D5 u' => 53%N :: uint_chars u'
  | D6 u' => 54%N :: uint_chars u'
  | D7 u' => 55%N :: uint_chars u'
  | D8 u' => 56%N :: uint_chars u'
  | D9 u' => 57%N :: uint_chars u'
  end.

Definition dec_chars (n : N) : pystr := uint_chars (N.to_uint n).

(** [num / den] rounded to the nearest integer, ties to even. *)
Definition round_half_even (num den : N) : N :=
  let q := (num / den)%N in
  let r := (num mod den)%N in
  match (2 * r ?= den)%N with
  | Lt => q
  | Gt => (q + 1)%N
  | Eq => if N.even q then q else (q + 1)%N
  end.

(** [|x| * 1000] rounded to an integer, for [x = m * 2^e]. *)
Definition thousandths (m : N) (e : Z) : N :=
  if (0 <=? e)%Z
  then (m * 1000 * 2 ^ Z.to_N e)%N
  else round_half_even (m * 1000) (2 ^ Z.to_N (- e)).

(** The digits of [format(x, '.3f')] without the sign. *)
Definition fixed3_body (x : pyfloat) : pystr :=
  match x with
  | Finite _ m e =>
      let n := thousandths m e in
      let frac := dec_chars (n mod 1000) in
      dec_chars (n / 1000) ++ lit "." ++ repeat 48%N (3 - length frac) ++ frac
  | Inf _ => lit "inf"
  | NaN => lit "nan"
  end.

Definition sign_chars (x : pyfloat) : pystr :=
  match x with
  | Finite true _ _ | Inf true => lit "-"
  | _ => []
  end.

(** [format(x, '010.3f')]: the [0] flag pads with zeros after the sign up
    to a total field width of 10 characters. *)
Definition format_010_3f (x : pyfloat) : pystr :=
  let s := sign_chars x in
  let body := fixed3_body x in
  s ++ repeat 48%N (10 - length s - length body) ++ body.

(** Upper-case hexadecimal digit. *)
Definition hex_char (d : N) : char :=
  if (d <? 10)%N then (48 + d)%N else (55 + d)%N.

(** [format(n, '02X')] for a byte. *)
Definition format_02X (b : Byte.byte) : pystr :=
  let n := Byte.to_N b in
  [hex_char (n / 16); hex_char (n mod 16)].

(** ** Frame codec *)

Definition ENQ : Byte.byte := x05.
Definition NAK : Byte.byte := x15.
Definition CRLF : bytes := [x0d; x0a].

(** [parse_header], lines 23-35. *)
Definition parse_header (header_byte : Byte.byte) : pystr :=
  if Byte.eqb header_byte x02 then lit "STX"
  else if Byte.eqb header_byte x06 then lit "ACK"
  else if Byte.eqb header_byte x15 then lit "NAK"
  else lit "UNKNOWN(0x" ++ format_02X header_byte ++ lit ")".

(** [build_command_frame], lines 37-58. *)
Definition build_command_frame
    (unit_no channel_no cmd_code text : pystr) : result bytes :=
  (let* cmd_code :=
     (if length cmd_code <? 8 then ok (ljust 8 95%N cmd_code)
      else if 8 <? length cmd_code then throw ValueError
      else ok cmd_code) in
   let frame := [ENQ] in
   let* u := encode_ascii unit_no in
   let frame := frame ++ u in
   let* c := encode_ascii channel_no in
   let frame := frame ++ c in
   let* k := encode_ascii cmd_code in
   let frame := frame ++ k in
   let* frame :=
     (match text with
      | [] => ok frame
      | _ => let* t := encode_ascii text in ok (frame ++ t)
      end) in
   ok (frame ++ CRLF))%result.

(** The dictionary returned by [parse_response_frame]. *)
Record parsed : Type := mkParsed {
  header_byte : Byte.byte;
  header_str : pystr;
  unit_no : pystr;
  channel_no : pystr;
  cmd_code : pystr;
  error_code : option pystr;
  text_data : pystr
}.

(** [parse_response_frame], lines 60-100.  [resp_bytes[0]] is read after
    the length test, so the list is never empty there. *)
Definition parse_response_frame (resp_bytes : bytes) : option parsed :=
  if length resp_bytes <? 15 then None
  else
    let header_byte := nth 0 resp_bytes x00 in
    let header_str := parse_header header_byte in
    let unit_no := decode_ascii_ignore (slice 1 3 resp_bytes) in
    let channel_no := decode_ascii_ignore (slice 3 5 resp_bytes) in
    let cmd_code := decode_ascii_ignore (slice 5 13 resp_bytes) in
    if Byte.eqb header_byte x15 then
      if length resp_bytes <? 13 + 4 then None
      else
        let error_code := decode_ascii_ignore (slice 13 15 resp_bytes) in
        Some (mkParsed header_byte header_str unit_no channel_no cmd_code
                       (Some error_code) [])
    else
      let text_part := decode_ascii_ignore (slice 13 (-2) resp_bytes) in
      Some (mkParsed header_byte header_str unit_no channel_no cmd_code
                     None text_part).

(** ** The serial port and the controller's effects *)

(** What the controller needs from [serial.Serial]: [write] and
    [read_until(terminator)], the latter returning the bytes read before the
    terminator or the timeout (possibly none).  Both are taken to return:
    an exception of the serial library itself (port closed, device lost)
    is outside the model, so every statement below is about exchanges in
    which the port's calls return. *)
Class Serial (port : Type) : Type := {
  ser_write : bytes -> port -> port;
  ser_read_until : bytes -> port -> bytes * port
}.

(** Python's [float(str)]; [None] stands for its [ValueError]. *)
Class Builtins : Type := {
  float : pystr -> option pyfloat
}.

(** The lines printed by the controller, one constructor per [print]. *)
Inductive output : Type :=
| msg_no_response (cmd_code : pystr)
| msg_raw_response (resp_bytes : bytes)
| msg_parse_error
| msg_parsed (p : parsed)
| msg_ff_write_failed
| msg_cfw_failed
| msg_started_cutout (amount : pyfloat)
| msg_fdis_failed
| msg_discharge_accepted.

(** The state threaded through the controller: the port, the frames
    written to it so far (oldest first) and the printed lines. *)
Record world (port : Type) : Type := mkWorld {
  ser : port;
  sent : list bytes;
  stdout : list output
}.
Arguments mkWorld {port} _ _ _.
Arguments ser {port} _.
Arguments sent {port} _.
Arguments stdout {port} _.

Definition M (port A : Type) : Type := world port -> result A * world port.

Definition ret {port A} (a : A) : M port A := fun w => (inr a, w).

Definition bind {port A B} (m : M port A) (k : A -> M port B) : M port B :=
  fun w =>
    match m w with
    | (inl e, w') => (inl e, w')
    | (inr a, w') => k a w'
    end.

Definition lift {port A} (r : result A) : M port A := fun w => (r, w).

Declare Scope io_scope.
Delimit Scope io_scope with io.
Notation "x <- m ;; k" := (bind m (fun x => k))
  (at level 61, m at next level, right associativity) : io_scope.
Notation "m ;;; k" := (bind m (fun _ => k))
  (at level 61, right associativity) : io_scope.

Definition print {port} (o : output) : M port unit :=
  fun w => (inr tt, mkWorld (ser w) (sent w) (stdout w ++ [o])).

Definition write {port} `{Serial port} (frame : bytes) : M port unit :=
  fun w => (inr tt, mkWorld (ser_write frame (ser w)) (sent w ++ [frame]) (stdout w)).

Definition read_until {port} `{Serial port} (terminator : bytes) : M port bytes :=
  fun w =>
    let (resp, p) := ser_read_until terminator (ser w) in
    (inr resp, mkWorld p (sent w) (stdout w)).

(** ** Exchange and device operations *)

Section Controller.
Context {port : Type} `{Serial port} `{Builtins}.
Local Open Scope io_scope.

(** [send_command], lines 102-126. *)
Definition send_command
    (unit_no channel_no cmd_code text : pystr) : M port (option parsed) :=
  frame <- lift (build_command_frame unit_no channel_no cmd_code text) ;;
  write frame ;;;
  resp_bytes <- read_until CRLF ;;
  match resp_bytes with
  | [] =>
      print (msg_no_response cmd_code) ;;;
      ret None
  | _ =>
      print (msg_raw_response resp_bytes) ;;;
      match parse_response_frame resp_bytes with
      | None =>
          print msg_parse_error ;;;
          ret None
      | Some parsed =>
          print (msg_parsed parsed) ;;;
          ret (Some parsed)
      end
  end.

(** [not resp or resp["header_str"] == "NAK"]; the dictionary is never
    empty, so [not resp] holds exactly for [None]. *)
Definition not_accepted (resp : option parsed) : bool :=
  match resp with
  | None => true
  | Some r => pystr_eqb (header_str r) (lit "NAK")
  end.

(** [get_current_weight], lines 135-150. *)
Definition get_current_weight
    (unit_no channel_no : pystr) : M port (option pyfloat) :=
  resp <- send_command unit_no channel_no (lit "GROSS___") [] ;;
  match resp with
  | None => ret None
  | Some r =>
      if pystr_eqb (header_str r) (lit "NAK") then ret None
      else ret (float (text_data r))
  end.

(** Line 161: [f"+{amount:010.3f}"]. *)
Definition text_value (amount : pyfloat) : pystr :=
  lit "+" ++ format_010_3f amount.

(** [cut_out_amount], lines 152-174. *)
Definition cut_out_amount
    (unit_no channel_no : pystr) (amount : pyfloat) : M port bool :=
  resp <- send_command unit_no channel_no (lit "FF______") (text_value amount) ;;
  if not_accepted resp then
    print msg_ff_write_failed ;;;
    ret false
  else
    resp2 <- send_command unit_no channel_no (lit "CFW_____") [] ;;
    if not_accepted resp2 then
      print msg_cfw_failed ;;;
      ret false
    else
      print (msg_started_cutout amount) ;;;
      ret true.

(** [discharge_all], lines 176-189. *)
Definition discharge_all (unit_no channel_no : pystr) : M port bool :=
  resp <- send_command unit_no channel_no (lit "FDIS____") [] ;;
  if not_accepted resp then
    print msg_fdis_failed ;;;
    ret false
  else
    print msg_discharge_accepted ;;;
    ret true.

End Controller.

(** ** A scripted port

    A port that answers each read with the next response of a fixed script
    and with no bytes once the script is exhausted.  It is used to run the
    controller on concrete exchanges. *)

Definition script := list bytes.

#[export] Instance scripted_serial : Serial script := {
  ser_write := fun _ p => p;
  ser_read_until := fun _ p =>
    match p with
    | [] => ([], [])
    | r :: p' => (r, p')
    end
}.

(** A [float] that rejects every string; the operations exercised on the
    scripted port never reach it. *)
Definition no_float : Builtins := {| float := fun _ => None |}.

Definition fresh (p : script) : world script := mkWorld p [] [].

(** The bytes of an ASCII literal. *)
Definition blit (s : string) : bytes := list_byte_of_string s.

(** 120.0 and 0.5 as floats. *)
Definition f120 : pyfloat := Finite false 15 3.
Definition f0_5 : pyfloat := Finite false 1 (-1).

(** ** Vocabulary of the properties *)

Definition is_ascii (s : pystr) : Prop := Forall (fun c => (c < 128)%N) s.

Definition has_non_ascii (s : pystr) : Prop := Exists (fun c => (128 <= c)%N) s.

Definition ascii_byte (b : Byte.byte) : bool := (Byte.to_N b <? 128)%N.

(** The string left when the bytes outside ASCII are dropped. *)
Definition keep_ascii (bs : bytes) : pystr := map Byte.to_N (filter ascii_byte bs).

(** The command field of a request frame built for [unit_no] and
    [channel_no]: the 8 bytes after ENQ and the two address fields. *)
Definition cmd_field (unit_no channel_no : pystr) (frame : bytes) : bytes :=
  firstn 8 (skipn (1 + length unit_no + length channel_no) frame).

(** The text field of a response: from offset 13 up to the last two bytes. *)
Definition text_field (resp : bytes) : bytes :=
  firstn (length resp - 15) (skipn 13 resp).

(** Decoding the request built from the four fields gives back the
    address fields and the command code padded with ['_'] to 8 characters. *)
Definition roundtrip (u c k t : pystr) : Prop :=
  exists frame p,
    build_command_frame u c k t = inr frame /\
    parse_response_frame frame = Some p /\
    unit_no p = u /\
    channel_no p = c /\
    cmd_code p = k ++ repeat 95%N (8 - length k).

(** A byte sequence made of ASCII bytes only. *)
Definition ascii_bytes (bs : bytes) : Prop :=
  Forall (fun b => (Byte.to_N b < 128)%N) bs.

(** The test every operation applies to the bytes it read, seen from the
    wire: at least 15 bytes, the first of which is not NAK. *)
Definition accepted (resp : bytes) : bool :=
  (15 <=? length resp) && negb (Byte.eqb (nth 0 resp x00) NAK).

(** The 256 byte values, in increasing order. *)
Definition all_bytes : bytes :=
  map (fun n => match Byte.of_nat n with Some b => b | None => x00 end)
      (seq 0 256).

(** A port that echoes: a read returns the frame written last. *)
Definition loopback_serial : Serial bytes := {|
  ser_write := fun frame _ => frame;
  ser_read_until := fun _ p => (p, [])
|}.

(** A [float] that knows the single literal [1.5]. *)
Definition float_1_5 : Builtins :=
  {| float := fun s =>
       if pystr_eqb s (lit "1.5") then Some (Finite false 3 (-1)) else None |}.

(** A port that never answers: every read times out with no bytes. *)
Definition silent_serial : Serial unit := {|
  ser_write := fun _ p => p;
  ser_read_until := fun _ p => ([], p)
|}.

(** The number written by a string of decimal digits. *)
Definition digits_value (s : pystr) : N :=
  fold_left (fun acc ch => (10 * acc + (ch - 48))%N) s 0%N.


(** * Properties *)

(** ** Strings and bytes *)

Lemma pystr_eqb_eq (a b : pystr) : pystr_eqb a b = true <-> a = b.
Proof.
  revert b; induction a as [|x a IH]; intros [|y b]; simpl;
    try (split; [discriminate | congruence]); try tauto.
  rewrite andb_true_iff, N.eqb_eq, IH.
  split; [intros [-> ->]; reflexivity | intros E; injection E; auto].
Qed.

Lemma encode_ascii_inr (s : pystr) (bs : bytes) :
  encode_ascii s = inr bs -> map Byte.to_N bs = s /\ is_ascii s.
Proof.
  revert bs; induction s as [|c s IH]; intros bs; simpl.
  - intros E; injection E as <-; split; [reflexivity | constructor].
  - destruct (N.ltb_spec c 128) as [Hc|Hc]; [|discriminate].
    destruct (Byte.of_N c) as [b|] eqn:Hb; [|discriminate].
    destruct (encode_ascii s) as [e|bs'] eqn:Hs; simpl; [discriminate|].
    intros E; injection E as <-.
    destruct (IH bs' eq_refl) as [Hm Ha].
    split.
    + simpl. rewrite Hm, (Byte.to_of_N c Hb). reflexivity.
    + constructor; assumption.
Qed.

Lemma encode_ascii_total (s : pystr) :
  is_ascii s -> exists bs, encode_ascii s = inr bs.
Proof.
  induction 1 as [|c s Hc _ [bs IH]]; simpl.
  - exists []; reflexivity.
  - apply N.ltb_lt in Hc as Hc'. rewrite Hc'.
    destruct (Byte.of_N c) as [b|] eqn:Hb.
    + rewrite IH; simpl. eexists; reflexivity.
    + apply Byte.of_N_None_iff in Hb. lia.
Qed.

Lemma encode_ascii_error (s : pystr) :
  has_non_ascii s -> encode_ascii s = inl UnicodeEncodeError.
Proof.
  induction s as [|c s IH]; intros Hs; inversion Hs; subst; simpl.
  - destruct (N.ltb_spec c 128); [lia | reflexivity].
  - destruct (c <? 128)%N; [|reflexivity].
    destruct (Byte.of_N c); [|reflexivity].
    rewrite IH by assumption. reflexivity.
Qed.

Lemma encode_ascii_failure (s : pystr) (e : exception) :
  encode_ascii s = inl e -> e = UnicodeEncodeError /\ has_non_ascii s.
Proof.
  induction s as [|c s IH]; simpl; [discriminate|].
  destruct (N.ltb_spec c 128) as [Hc|Hc].
  - destruct (Byte.of_N c) as [b|] eqn:Hb.
    + destruct (encode_ascii s) as [e'|bs]; simpl; [|discriminate].
      intros E; injection E as <-.
      destruct (IH eq_refl) as [-> Hs].
      split; [reflexivity | apply Exists_cons_tl, Hs].
    + apply Byte.of_N_None_iff in Hb. lia.
  - intros E; injection E as <-.
    split; [reflexivity | apply Exists_cons_hd, Hc].
Qed.

Lemma encode_ascii_length (s : pystr) (bs : bytes) :
  encode_ascii s = inr bs -> length bs = length s.
Proof.
  intros E. apply encode_ascii_inr in E as [<- _].
  symmetry; apply length_map.
Qed.

Lemma decode_ascii_ignore_keep (bs : bytes) :
  decode_ascii_ignore bs = keep_ascii bs.
Proof.
  unfold keep_ascii, ascii_byte.
  induction bs as [|b bs IH]; simpl; [reflexivity|].
  destruct (Byte.to_N b <? 128)%N; simpl; rewrite IH; reflexivity.
Qed.

Lemma decode_ascii_ignore_app (a b : bytes) :
  decode_ascii_ignore (a ++ b) = decode_ascii_ignore a ++ decode_ascii_ignore b.
Proof.
  induction a as [|x a IH]; simpl; [reflexivity|].
  destruct (Byte.to_N x <? 128)%N; simpl; rewrite IH; reflexivity.
Qed.

Lemma decode_encode (s : pystr) (bs : bytes) :
  encode_ascii s = inr bs -> decode_ascii_ignore bs = s.
Proof.
  intros E. apply encode_ascii_inr in E as [<- Ha].
  induction bs as [|b bs IH]; simpl; [reflexivity|].
  inversion Ha as [|? ? Hb Hbs]; subst.
  apply N.ltb_lt in Hb; rewrite Hb, IH by assumption. reflexivity.
Qed.

Lemma is_ascii_app (a b : pystr) :
  is_ascii a -> is_ascii b -> is_ascii (a ++ b).
Proof. intros Ha Hb; apply Forall_app; split; assumption. Qed.

Lemma is_ascii_repeat_underscore (n : nat) : is_ascii (repeat 95%N n).
Proof.
  induction n; simpl; constructor; [reflexivity | assumption].
Qed.

Lemma not_ascii_non_ascii (s : pystr) : is_ascii s -> has_non_ascii s -> False.
Proof.
  intros Ha Hn. apply Exists_exists in Hn as [c [Hin Hc]].
  unfold is_ascii in Ha. rewrite Forall_forall in Ha.
  specialize (Ha c Hin). lia.
Qed.

(** ** Slices *)

Lemma slice_nonneg {A} (lo hi : nat) (l : list A) :
  lo <= hi <= length l ->
  slice (Z.of_nat lo) (Z.of_nat hi) l = firstn (hi - lo) (skipn lo l).
Proof.
  intros Hb. unfold slice, norm_index.
  destruct (Z.ltb_spec (Z.of_nat lo) 0); [lia|].
  destruct (Z.ltb_spec (Z.of_nat hi) 0); [lia|].
  rewrite !Z.min_l by lia.
  rewrite <- Nat2Z.inj_sub, !Nat2Z.id by lia. reflexivity.
Qed.

Lemma slice_to_end_minus {A} (lo k : nat) (l : list A) :
  0 < k -> lo + k <= length l ->
  slice (Z.of_nat lo) (- Z.of_nat k) l = firstn (length l - k - lo) (skipn lo l).
Proof.
  intros Hk Hb. unfold slice, norm_index.
  destruct (Z.ltb_spec (Z.of_nat lo) 0); [lia|].
  destruct (Z.ltb_spec (- Z.of_nat k) 0); [|lia].
  rewrite Z.min_l, Z.max_r by lia.
  rewrite Nat2Z.id. f_equal. lia.
Qed.

(** ** Shape of the request frame *)

(** The padding step of lines 45-48, in one equation. *)
Lemma pad_step (k : pystr) :
  (if length k <? 8 then ok (ljust 8 95%N k)
   else if 8 <? length k then throw ValueError
   else ok k)
  = if 8 <? length k then inl ValueError
    else inr (k ++ repeat 95%N (8 - length k)).
Proof.
  unfold ljust, ok, throw.
  destruct (Nat.ltb_spec (length k) 8) as [H8|H8];
    destruct (Nat.ltb_spec 8 (length k)) as [H9|H9]; try lia; try reflexivity.
  replace (8 - length k) with 0 by lia. simpl. rewrite app_nil_r. reflexivity.
Qed.

(** The optional text of lines 55-56: appending the encoding of an empty
    text is the same as appending nothing. *)
Lemma text_step (frame : bytes) (t : pystr) :
  match t with
  | [] => ok frame
  | _ => rbind (encode_ascii t) (fun tb => ok (frame ++ tb))
  end
  = rbind (encode_ascii t) (fun tb => ok (frame ++ tb)).
Proof.
  destruct t; [simpl; rewrite app_nil_r|]; reflexivity.
Qed.

Lemma build_command_frame_eq (u c k t : pystr) :
  build_command_frame u c k t =
  if 8 <? length k then inl ValueError
  else
    rbind (encode_ascii u) (fun ub =>
    rbind (encode_ascii c) (fun cb =>
    rbind (encode_ascii (k ++ repeat 95%N (8 - length k))) (fun kb =>
    rbind (encode_ascii t) (fun tb =>
      ok (ENQ :: ub ++ cb ++ kb ++ tb ++ CRLF))))).
Proof.
  unfold build_command_frame. rewrite pad_step.
  destruct (8 <? length k); simpl; [reflexivity|].
  destruct (encode_ascii u) as [e|ub]; simpl; [reflexivity|].
  destruct (encode_ascii c) as [e|cb]; simpl; [reflexivity|].
  destruct (encode_ascii _) as [e|kb]; simpl; [reflexivity|].
  rewrite text_step.
  destruct (encode_ascii t) as [e|tb]; simpl; [reflexivity|].
  unfold ok. rewrite <- !app_assoc. reflexivity.
Qed.

Lemma build_command_frame_inr (u c k t : pystr) (frame : bytes) :
  build_command_frame u c k t = inr frame ->
  length k <= 8 /\
  exists ub cb kb tb,
    encode_ascii u = inr ub /\
    encode_ascii c = inr cb /\
    encode_ascii (k ++ repeat 95%N (8 - length k)) = inr kb /\
    encode_ascii t = inr tb /\
    frame = ENQ :: ub ++ cb ++ kb ++ tb ++ CRLF.
Proof.
  rewrite build_command_frame_eq.
  destruct (Nat.ltb_spec 8 (length k)) as [H8|H8]; [discriminate|].
  destruct (encode_ascii u) as [e|ub]; simpl; [discriminate|].
  destruct (encode_ascii c) as [e|cb]; simpl; [discriminate|].
  destruct (encode_ascii _) as [e|kb]; simpl; [discriminate|].
  destruct (encode_ascii t) as [e|tb]; simpl; [discriminate|].
  intros E; injection E as <-.
  split; [assumption|].
  exists ub, cb, kb, tb. repeat split; reflexivity.
Qed.

Lemma build_command_frame_total (u c k t : pystr) :
  is_ascii u -> is_ascii c -> is_ascii k -> is_ascii t -> length k <= 8 ->
  exists frame, build_command_frame u c k t = inr frame.
Proof.
  intros Hu Hc Hk Ht H8.
  rewrite build_command_frame_eq.
  destruct (Nat.ltb_spec 8 (length k)); [lia|].
  destruct (encode_ascii_total u Hu) as [ub ->].
  destruct (encode_ascii_total c Hc) as [cb ->].
  destruct (encode_ascii_total (k ++ repeat 95%N (8 - length k))) as [kb ->];
    [apply is_ascii_app; [assumption | apply is_ascii_repeat_underscore]|].
  destruct (encode_ascii_total t Ht) as [tb ->].
  simpl. eexists; reflexivity.
Qed.

Lemma build_command_frame_too_long (u c k t : pystr) :
  8 < length k -> build_command_frame u c k t = inl ValueError.
Proof.
  intros H8. rewrite build_command_frame_eq.
  destruct (Nat.ltb_spec 8 (length k)); [reflexivity | lia].
Qed.

Lemma build_command_frame_failure (u c k t : pystr) (e : exception) :
  build_command_frame u c k t = inl e ->
  (e = ValueError /\ 8 < length k) \/
  (e = UnicodeEncodeError /\ length k <= 8 /\
   (has_non_ascii u \/ has_non_ascii c \/ has_non_ascii k \/ has_non_ascii t)).
Proof.
  rewrite build_command_frame_eq.
  destruct (Nat.ltb_spec 8 (length k)) as [H8|H8].
  - intros E; injection E as <-. left; split; [reflexivity | assumption].
  - intros E. right.
    destruct (encode_ascii u) as [e1|ub] eqn:Eu; simpl in E.
    { injection E as <-. apply encode_ascii_failure in Eu as [-> Hu]. auto. }
    destruct (encode_ascii c) as [e1|cb] eqn:Ec; simpl in E.
    { injection E as <-. apply encode_ascii_failure in Ec as [-> Hc]. auto. }
    destruct (encode_ascii (k ++ _)) as [e1|kb] eqn:Ek; simpl in E.
    { injection E as <-. apply encode_ascii_failure in Ek as [-> Hk].
      repeat split; try assumption. right; right; left.
      apply Exists_app in Hk as [Hk|Hk]; [assumption|].
      exfalso. eapply not_ascii_non_ascii; [|exact Hk].
      apply is_ascii_repeat_underscore. }
    destruct (encode_ascii t) as [e1|tb] eqn:Et; simpl in E; [|discriminate].
    injection E as <-. apply encode_ascii_failure in Et as [-> Ht]. auto 6.
Qed.

Lemma build_command_frame_non_ascii (u c k t : pystr) :
  length k <= 8 ->
  has_non_ascii u \/ has_non_ascii c \/ has_non_ascii t ->
  build_command_frame u c k t = inl UnicodeEncodeError.
Proof.
  intros H8 Hn.
  destruct (build_command_frame u c k t) as [e|frame] eqn:E.
  - apply build_command_frame_failure in E as [[_ H9]|[-> _]]; [lia | reflexivity].
  - exfalso.
    apply build_command_frame_inr in E
      as [_ (ub & cb & kb & tb & Eu & Ec & _ & Et & _)].
    apply encode_ascii_inr in Eu as [_ Hu].
    apply encode_ascii_inr in Ec as [_ Hc].
    apply encode_ascii_inr in Et as [_ Ht].
    destruct Hn as [Hn|[Hn|Hn]];
      [ apply (not_ascii_non_ascii u) | apply (not_ascii_non_ascii c)
      | apply (not_ascii_non_ascii t) ]; assumption.
Qed.

(** ** Header classification *)

Lemma parse_header_NAK_eqb (b : Byte.byte) :
  pystr_eqb (parse_header b) (lit "NAK") = Byte.eqb b NAK.
Proof. destruct b; reflexivity. Qed.

Lemma parse_header_NAK (b : Byte.byte) :
  parse_header b = lit "NAK" <-> b = NAK.
Proof.
  rewrite <- pystr_eqb_eq, parse_header_NAK_eqb.
  split; [apply Byte.byte_dec_bl | apply Byte.byte_dec_lb].
Qed.

(** ** Fields of a response *)

Lemma field_app {A} (lo n : nat) (a b : list A) :
  lo + n <= length a ->
  firstn n (skipn lo (a ++ b)) = firstn n (skipn lo a).
Proof.
  intros Hb. rewrite skipn_app.
  replace (lo - length a) with 0 by lia. simpl.
  rewrite firstn_app, length_skipn.
  replace (n - (length a - lo)) with 0 by lia. simpl.
  apply app_nil_r.
Qed.

Lemma slice_text_field (resp : bytes) :
  15 <= length resp -> slice 13 (-2) resp = text_field resp.
Proof.
  intros Hl. unfold text_field.
  change 13%Z with (Z.of_nat 13). change (-2)%Z with (- Z.of_nat 2)%Z.
  rewrite slice_to_end_minus by lia.
  f_equal. lia.
Qed.

(** The two ways [parse_response_frame] returns a dictionary, with the
    slices written as offset and length. *)
Lemma parse_response_frame_text (resp : bytes) :
  15 <= length resp -> nth 0 resp x00 <> NAK ->
  parse_response_frame resp =
  Some {| header_byte := nth 0 resp x00;
          header_str := parse_header (nth 0 resp x00);
          unit_no := decode_ascii_ignore (firstn 2 (skipn 1 resp));
          channel_no := decode_ascii_ignore (firstn 2 (skipn 3 resp));
          cmd_code := decode_ascii_ignore (firstn 8 (skipn 5 resp));
          error_code := None;
          text_data := decode_ascii_ignore (text_field resp) |}.
Proof.
  intros Hl Hh. unfold parse_response_frame.
  destruct (Nat.ltb_spec (length resp) 15); [lia|].
  destruct (Byte.eqb (nth 0 resp x00) x15) eqn:Hb;
    [apply Byte.byte_dec_bl in Hb; contradiction|].
  rewrite slice_text_field by assumption.
  rewrite (slice_nonneg 1 3), (slice_nonneg 3 5), (slice_nonneg 5 13) by lia.
  reflexivity.
Qed.

Lemma parse_response_frame_nak (resp : bytes) :
  17 <= length resp -> nth 0 resp x00 = NAK ->
  parse_response_frame resp =
  Some {| header_byte := NAK;
          header_str := lit "NAK";
          unit_no := decode_ascii_ignore (firstn 2 (skipn 1 resp));
          channel_no := decode_ascii_ignore (firstn 2 (skipn 3 resp));
          cmd_code := decode_ascii_ignore (firstn 8 (skipn 5 resp));
          error_code := Some (decode_ascii_ignore (firstn 2 (skipn 13 resp)));
          text_data := [] |}.
Proof.
  intros Hl Hh. unfold parse_response_frame.
  destruct (Nat.ltb_spec (length resp) 15); [lia|].
  rewrite Hh. change (Byte.eqb NAK x15) with true. cbv iota.
  destruct (Nat.ltb_spec (length resp) (13 + 4)); [simpl in *; lia|].
  rewrite (slice_nonneg 1 3), (slice_nonneg 3 5), (slice_nonneg 5 13),
    (slice_nonneg 13 15) by lia.
  reflexivity.
Qed.

Lemma parse_response_frame_None (resp : bytes) :
  parse_response_frame resp = None <->
  length resp < 15 \/ (nth 0 resp x00 = NAK /\ length resp < 17).
Proof.
  split.
  - intros E.
    destruct (Nat.lt_ge_cases (length resp) 15) as [|H15]; [left; assumption|].
    right.
    destruct (Byte.byte_eq_dec (nth 0 resp x00) NAK) as [Hh|Hh].
    + split; [assumption|].
      destruct (Nat.lt_ge_cases (length resp) 17) as [|H17]; [assumption|].
      rewrite parse_response_frame_nak in E by assumption. discriminate.
    + rewrite parse_response_frame_text in E by assumption. discriminate.
  - unfold parse_response_frame.
    intros [Hl|[Hh Hl]].
    + destruct (Nat.ltb_spec (length resp) 15); [reflexivity | lia].
    + destruct (length resp <? 15); [reflexivity|].
      rewrite Hh. change (Byte.eqb NAK x15) with true. cbv iota.
      destruct (Nat.ltb_spec (length resp) (13 + 4)); [reflexivity | simpl in *; lia].
Qed.

Lemma parse_response_frame_header (resp : bytes) (p : parsed) :
  parse_response_frame resp = Some p ->
  header_byte p = nth 0 resp x00 /\ header_str p = parse_header (nth 0 resp x00).
Proof.
  unfold parse_response_frame.
  destruct (length resp <? 15); [discriminate|].
  destruct (Byte.eqb (nth 0 resp x00) x15).
  - destruct (length resp <? 13 + 4); [discriminate|].
    intros E; injection E as <-. split; reflexivity.
  - intros E; injection E as <-. split; reflexivity.
Qed.

(** ** One exchange *)

Lemma is_ascii_lit_GROSS : is_ascii (lit "GROSS___").
Proof. repeat constructor. Qed.

Lemma is_ascii_lit_FDIS : is_ascii (lit "FDIS____").
Proof. repeat constructor. Qed.

Section Exchange.
Context {port : Type} `{Serial port} `{Builtins}.

(** [send_command] unfolded: what it returns and the world it leaves. *)
Lemma send_command_eq (u c k t : pystr) (w : world port) :
  send_command u c k t w =
  match build_command_frame u c k t with
  | inl e => (inl e, w)
  | inr frame =>
      let (resp, p') := ser_read_until CRLF (ser_write frame (ser w)) in
      match resp with
      | [] =>
          (inr None,
           mkWorld p' (sent w ++ [frame]) (stdout w ++ [msg_no_response k]))
      | _ =>
          match parse_response_frame resp with
          | None =>
              (inr None,
               mkWorld p' (sent w ++ [frame])
                 (stdout w ++ [msg_raw_response resp; msg_parse_error]))
          | Some p =>
              (inr (Some p),
               mkWorld p' (sent w ++ [frame])
                 (stdout w ++ [msg_raw_response resp; msg_parsed p]))
          end
      end
  end.
Proof.
  unfold send_command, bind, lift, write, read_until, print, ret.
  destruct (build_command_frame u c k t) as [e|frame]; [reflexivity|].
  simpl.
  destruct (ser_read_until CRLF (ser_write frame (ser w))) as [resp p'].
  destruct resp as [|b resp]; [reflexivity|].
  destruct (parse_response_frame (b :: resp)); simpl;
    rewrite <- app_assoc; reflexivity.
Qed.

(** A failed build raises before anything is written or printed. *)
Lemma send_command_raises (u c k t : pystr) (w : world port) (e : exception) :
  build_command_frame u c k t = inl e ->
  send_command u c k t w = (inl e, w).
Proof. intros E. rewrite send_command_eq, E. reflexivity. Qed.

(** An exchange whose read comes back empty. *)
Lemma send_command_no_response
    (u c k t : pystr) (w : world port) (frame : bytes) :
  build_command_frame u c k t = inr frame ->
  fst (ser_read_until CRLF (ser_write frame (ser w))) = [] ->
  exists w', send_command u c k t w = (inr None, w').
Proof.
  intros E Hr. rewrite send_command_eq, E.
  destruct (ser_read_until CRLF (ser_write frame (ser w))) as [resp p'].
  simpl in Hr; subst resp. eexists; reflexivity.
Qed.

(** The test of lines 163, 169 and 184 on the outcome of an exchange. *)
Lemma not_accepted_parse (resp : bytes) :
  resp = [] \/ parse_response_frame resp = None \/ nth 0 resp x00 = NAK ->
  not_accepted (parse_response_frame resp) = true.
Proof.
  intros Hf. unfold not_accepted.
  destruct (parse_response_frame resp) as [p|] eqn:E; [|reflexivity].
  destruct (parse_response_frame_header resp p E) as [_ Hs].
  destruct Hf as [Hr | [Hn | Hh]].
  - subst resp. vm_compute in E. discriminate E.
  - discriminate Hn.
  - rewrite Hs, parse_header_NAK_eqb, Hh. reflexivity.
Qed.

End Exchange.

(** ** Fields of a built request *)

Lemma skipn_app_exact {A} (a b : list A) : skipn (length a) (a ++ b) = b.
Proof.
  rewrite skipn_app, skipn_all, Nat.sub_diag. reflexivity.
Qed.

Lemma firstn_app_exact {A} (a b : list A) : firstn (length a) (a ++ b) = a.
Proof.
  rewrite firstn_app, firstn_all, Nat.sub_diag. simpl. apply app_nil_r.
Qed.

Lemma cmd_field_built (u c : pystr) (ub cb kb rest : bytes) :
  length ub = length u -> length cb = length c -> length kb = 8 ->
  cmd_field u c (ENQ :: ub ++ cb ++ kb ++ rest) = kb.
Proof.
  intros Hu Hc Hk. unfold cmd_field.
  change (1 + length u + length c) with (S (length u + length c)).
  rewrite skipn_cons, <- Hu, <- Hc, <- length_app, app_assoc, skipn_app_exact.
  rewrite <- Hk. apply firstn_app_exact.
Qed.

Lemma request_fields (ub cb kb tb : bytes) :
  length ub = 2 -> length cb = 2 -> length kb = 8 ->
  let frame := ENQ :: ub ++ cb ++ kb ++ tb ++ CRLF in
  firstn 2 (skipn 1 frame) = ub /\
  firstn 2 (skipn 3 frame) = cb /\
  firstn 8 (skipn 5 frame) = kb /\
  text_field frame = tb.
Proof.
  intros Hu Hc Hk frame.
  assert (Hl : length frame = 15 + length tb).
  { unfold frame. simpl. rewrite !length_app, Hu, Hc, Hk. simpl. lia. }
  assert (H1 : skipn 1 frame = ub ++ cb ++ kb ++ tb ++ CRLF) by reflexivity.
  assert (H3 : skipn 3 frame = cb ++ kb ++ tb ++ CRLF).
  { change 3 with (2 + 1). rewrite <- skipn_skipn, H1, <- Hu.
    apply skipn_app_exact. }
  assert (H5 : skipn 5 frame = kb ++ tb ++ CRLF).
  { change 5 with (2 + 3). rewrite <- skipn_skipn, H3, <- Hc.
    apply skipn_app_exact. }
  assert (H13 : skipn 13 frame = tb ++ CRLF).
  { change 13 with (8 + 5). rewrite <- skipn_skipn, H5, <- Hk.
    apply skipn_app_exact. }
  unfold text_field. rewrite H1, H3, H5, H13, Hl.
  repeat split.
  - rewrite <- Hu. apply firstn_app_exact.
  - rewrite <- Hc. apply firstn_app_exact.
  - rewrite <- Hk. apply firstn_app_exact.
  - replace (15 + length tb - 15) with (length tb) by lia.
    apply firstn_app_exact.
Qed.

(** ** Width of the formatted amount *)

(** The zero padding of ['010.3f'] fills the field up to 10 characters
    and never truncates. *)
Lemma format_010_3f_length (x : pyfloat) :
  length (format_010_3f x)
  = Nat.max 10 (length (sign_chars x) + length (fixed3_body x)).
Proof.
  unfold format_010_3f. rewrite !length_app, repeat_length.
  unfold char. lia.
Qed.

(** * The claims *)

(** ** C1: the text of the FF______ command *)

(** C1.  Line 161 formats the amount with ['010.3f'], a total field width
    of 10 characters, decimal point and decimals included.  For 120.0 the
    text is [+000120.000] and for 0.5 it is [+000000.500]: six integer
    digits, not the eight of [+00000120.000] and [+00000000.500] that the
    claim and the comment on that line announce.  The last part runs
    [cut_out_amount] for 120.0 and shows the frame it writes. *)
Theorem cut_out_amount_text_has_width_10 :
  text_value f120 = lit "+000120.000" /\
  text_value f0_5 = lit "+000000.500" /\
  text_value f120 <> lit "+00000120.000" /\
  text_value f0_5 <> lit "+00000000.500" /\
  sent (snd (cut_out_amount (lit "00") (lit "00") f120 (fresh []))) =
    [ENQ :: blit "0000FF______+000120.000" ++ CRLF].
Proof.
  repeat split; try reflexivity; intros E; vm_compute in E; discriminate E.
Qed.

(** ** C2: round trip of a request frame *)

(** C2, as stated, fails: a command code of at most 8 characters need not
    be ASCII, and then no frame is built.  Here the command code is the
    single character U+00E9. *)
Lemma roundtrip_fails_on_non_ascii_cmd_code :
  length (lit "00") = 2 /\ is_ascii (lit "00") /\
  length [233%N] <= 8 /\ is_ascii [] /\
  build_command_frame (lit "00") (lit "00") [233%N] [] = inl UnicodeEncodeError /\
  ~ roundtrip (lit "00") (lit "00") [233%N] [].
Proof.
  repeat split; try (repeat constructor).
  intros (frame & p & E & _). vm_compute in E. discriminate E.
Qed.

(** C2, amended: for address fields of exactly 2 ASCII characters, an
    ASCII command code of at most 8 characters and an ASCII text, the
    request is built and decoding it gives back the address fields and the
    command code padded with ['_'] to 8 characters. *)
Theorem request_frame_roundtrip (u c k t : pystr) :
  length u = 2 -> is_ascii u ->
  length c = 2 -> is_ascii c ->
  length k <= 8 -> is_ascii k ->
  is_ascii t ->
  roundtrip u c k t.
Proof.
  intros Lu Au Lc Ac Lk Ak At.
  destruct (build_command_frame_total u c k t Au Ac Ak At Lk) as [frame E].
  destruct (build_command_frame_inr _ _ _ _ _ E)
    as [_ (ub & cb & kb & tb & Eu & Ec & Ek & Et & ->)].
  pose proof (encode_ascii_length _ _ Eu) as Hu. rewrite Lu in Hu.
  pose proof (encode_ascii_length _ _ Ec) as Hc. rewrite Lc in Hc.
  pose proof (encode_ascii_length _ _ Ek) as Hk.
  rewrite length_app, repeat_length in Hk.
  replace (length k + (8 - length k)) with 8 in Hk by lia.
  destruct (request_fields ub cb kb tb Hu Hc Hk) as (F1 & F3 & F5 & _).
  eexists; eexists. split; [exact E|]. split.
  - apply parse_response_frame_text.
    + simpl. rewrite !length_app, Hu, Hc, Hk. simpl. lia.
    + simpl. discriminate.
  - cbn [unit_no channel_no cmd_code].
    rewrite F1, F3, F5.
    repeat split; apply decode_encode; assumption.
Qed.

Lemma request_frame_roundtrip_witness :
  roundtrip (lit "01") (lit "02") (lit "GROSS") (lit "+1.5").
Proof.
  apply request_frame_roundtrip;
    solve [reflexivity | repeat constructor].
Defined.

(** The text travels unchanged as well. *)
Lemma request_frame_roundtrip_text (u c k t : pystr) (frame : bytes) :
  length u = 2 -> length c = 2 ->
  build_command_frame u c k t = inr frame ->
  exists p, parse_response_frame frame = Some p /\
            text_data p = t /\ error_code p = None.
Proof.
  intros Lu Lc E.
  destruct (build_command_frame_inr _ _ _ _ _ E)
    as [Lk (ub & cb & kb & tb & Eu & Ec & Ek & Et & ->)].
  pose proof (encode_ascii_length _ _ Eu) as Hu. rewrite Lu in Hu.
  pose proof (encode_ascii_length _ _ Ec) as Hc. rewrite Lc in Hc.
  pose proof (encode_ascii_length _ _ Ek) as Hk.
  rewrite length_app, repeat_length in Hk.
  replace (length k + (8 - length k)) with 8 in Hk by lia.
  destruct (request_fields ub cb kb tb Hu Hc Hk) as (_ & _ & _ & F).
  eexists. split.
  - apply parse_response_frame_text.
    + simpl. rewrite !length_app, Hu, Hc, Hk. simpl. lia.
    + simpl. discriminate.
  - cbn [text_data error_code]. rewrite F. split; [apply decode_encode, Et | reflexivity].
Qed.

(** ** C3: minimum lengths *)

(** C3.  A response shorter than 15 bytes is not decoded; a response that
    starts with NAK and is shorter than 17 bytes is not decoded either; a
    NAK response of exactly 17 bytes is decoded, its error code being the
    two bytes at offsets 13 and 14 and its text empty. *)
Theorem response_length_boundaries (resp : bytes) :
  (length resp < 15 -> parse_response_frame resp = None) /\
  (nth 0 resp x00 = NAK -> 15 <= length resp < 17 ->
   parse_response_frame resp = None) /\
  (nth 0 resp x00 = NAK -> length resp = 17 ->
   exists p,
     parse_response_frame resp = Some p /\
     header_str p = lit "NAK" /\
     error_code p =
       Some (decode_ascii_ignore [nth 13 resp x00; nth 14 resp x00]) /\
     text_data p = []).
Proof.
  split; [|split].
  - intros Hl. apply parse_response_frame_None. left; assumption.
  - intros Hh Hl. apply parse_response_frame_None. right; split; [assumption|lia].
  - intros Hh Hl.
    eexists. split; [apply parse_response_frame_nak; [lia | assumption]|].
    repeat split. cbn [error_code].
    do 17 (destruct resp as [|? resp]; [discriminate Hl|]).
    reflexivity.
Qed.

Lemma response_length_boundaries_witness :
  parse_response_frame (blit "0123456789abcd") = None /\
  parse_response_frame (NAK :: blit "0102GROSS___E7" ++ [x0d]) = None /\
  exists p,
    parse_response_frame (NAK :: blit "0102GROSS___E7" ++ CRLF) = Some p /\
    header_str p = lit "NAK" /\
    error_code p = Some (lit "E7") /\
    text_data p = [].
Proof.
  split; [|split].
  - destruct (response_length_boundaries (blit "0123456789abcd")) as [H1 _].
    apply H1. simpl. lia.
  - destruct (response_length_boundaries
                (NAK :: blit "0102GROSS___E7" ++ [x0d])) as [_ [H2 _]].
    apply H2; [reflexivity | simpl; lia].
  - destruct (response_length_boundaries
                (NAK :: blit "0102GROSS___E7" ++ CRLF)) as [_ [_ H3]].
    apply H3; reflexivity.
Defined.

(** ** C6: padding of the command code *)

(** C6.  In a frame built for a command code shorter than 8 characters,
    the command field is the code followed by ['_'] up to 8 characters; for
    a code of exactly 8 characters it is the code itself; for a longer
    code no frame is built and the [ValueError] of line 48 is raised.  A
    frame is built whenever the code has at most 8 characters and all four
    fields are ASCII. *)
Theorem command_field_is_padded (u c k t : pystr) :
  (length k < 8 ->
   forall frame, build_command_frame u c k t = inr frame ->
     length (cmd_field u c frame) = 8 /\
     decode_ascii_ignore (cmd_field u c frame)
       = k ++ repeat 95%N (8 - length k) /\
     encode_ascii (k ++ repeat 95%N (8 - length k))
       = inr (cmd_field u c frame)) /\
  (length k = 8 ->
   forall frame, build_command_frame u c k t = inr frame ->
     decode_ascii_ignore (cmd_field u c frame) = k /\
     encode_ascii k = inr (cmd_field u c frame)) /\
  (8 < length k -> build_command_frame u c k t = inl ValueError) /\
  (length k <= 8 -> is_ascii u -> is_ascii c -> is_ascii k -> is_ascii t ->
   exists frame, build_command_frame u c k t = inr frame).
Proof.
  assert (Hfield : forall frame, build_command_frame u c k t = inr frame ->
    length (cmd_field u c frame) = 8 /\
    encode_ascii (k ++ repeat 95%N (8 - length k)) = inr (cmd_field u c frame)).
  { intros frame E.
    destruct (build_command_frame_inr _ _ _ _ _ E)
      as [Lk (ub & cb & kb & tb & Eu & Ec & Ek & _ & ->)].
    pose proof (encode_ascii_length _ _ Ek) as Hk.
    rewrite length_app, repeat_length in Hk.
    replace (length k + (8 - length k)) with 8 in Hk by lia.
    rewrite cmd_field_built;
      auto using encode_ascii_length. }
  split; [|split; [|split]].
  - intros _ frame E. destruct (Hfield frame E) as [Hl He].
    repeat split; try assumption. apply decode_encode, He.
  - intros L8 frame E. destruct (Hfield frame E) as [_ He].
    rewrite L8, Nat.sub_diag in He. simpl in He. rewrite app_nil_r in He.
    split; [apply decode_encode|]; exact He.
  - apply build_command_frame_too_long.
  - intros; apply build_command_frame_total; assumption.
Qed.

Lemma command_field_is_padded_witness :
  decode_ascii_ignore
    (cmd_field (lit "01") (lit "02")
       (ENQ :: blit "0102CFW_____" ++ CRLF)) = lit "CFW_____" /\
  decode_ascii_ignore
    (cmd_field (lit "01") (lit "02")
       (ENQ :: blit "0102GROSS___" ++ CRLF)) = lit "GROSS___" /\
  build_command_frame (lit "01") (lit "02") (lit "GROSS____") [] = inl ValueError /\
  exists frame,
    build_command_frame (lit "01") (lit "02") (lit "CFW") [] = inr frame.
Proof.
  split; [|split; [|split]].
  - destruct (command_field_is_padded (lit "01") (lit "02") (lit "CFW") [])
      as [H1 _].
    apply (H1 ltac:(simpl; lia) (ENQ :: blit "0102CFW_____" ++ CRLF) eq_refl).
  - destruct (command_field_is_padded (lit "01") (lit "02") (lit "GROSS___") [])
      as [_ [H2 _]].
    apply (H2 eq_refl (ENQ :: blit "0102GROSS___" ++ CRLF) eq_refl).
  - destruct (command_field_is_padded (lit "01") (lit "02") (lit "GROSS____") [])
      as [_ [_ [H3 _]]].
    apply H3. simpl. lia.
  - destruct (command_field_is_padded (lit "01") (lit "02") (lit "CFW") [])
      as [_ [_ [_ H4]]].
    apply H4; [simpl; lia | repeat constructor ..].
Defined.

(** ** C8: lenient decoding *)

(** C8.  A response of at least 15 bytes not headed by NAK is decoded
    whatever its bytes are; each of its four string fields is the
    corresponding byte field with the bytes outside ASCII dropped and the
    other bytes kept in order.  In particular a single byte outside ASCII
    in the text field just disappears from [text_data]. *)
Theorem lenient_ascii_decoding (resp : bytes) :
  15 <= length resp -> nth 0 resp x00 <> NAK ->
  exists p,
    parse_response_frame resp = Some p /\
    text_data p = keep_ascii (text_field resp) /\
    unit_no p = keep_ascii (firstn 2 (skipn 1 resp)) /\
    channel_no p = keep_ascii (firstn 2 (skipn 3 resp)) /\
    cmd_code p = keep_ascii (firstn 8 (skipn 5 resp)) /\
    (forall pre b post,
       text_field resp = pre ++ b :: post -> (128 <= Byte.to_N b)%N ->
       text_data p = keep_ascii pre ++ keep_ascii post).
Proof.
  intros Hl Hh. eexists.
  split; [apply parse_response_frame_text; assumption|].
  cbn [text_data unit_no channel_no cmd_code].
  rewrite !decode_ascii_ignore_keep.
  repeat split.
  intros pre b post -> Hb.
  unfold keep_ascii. rewrite filter_app. simpl.
  unfold ascii_byte at 2.
  destruct (N.ltb_spec (Byte.to_N b) 128); [lia|].
  apply map_app.
Qed.

Lemma lenient_ascii_decoding_witness :
  exists p,
    parse_response_frame
      (x02 :: blit "0102GROSS___" ++ blit "+12" ++ [xe9] ++ blit ".5" ++ CRLF)
      = Some p /\
    text_data p = lit "+12.5" /\
    unit_no p = lit "01" /\
    channel_no p = lit "02" /\
    cmd_code p = lit "GROSS___".
Proof.
  destruct (lenient_ascii_decoding
    (x02 :: blit "0102GROSS___" ++ blit "+12" ++ [xe9] ++ blit ".5" ++ CRLF))
    as (p & Hp & Ht & Hu & Hc & Hk & _).
  - simpl. lia.
  - simpl. discriminate.
  - exists p. repeat split; assumption.
Defined.

(** ** C9: the terminator is never inspected *)

Lemma nth_0_app (a b : bytes) :
  0 < length a -> nth 0 (a ++ b) x00 = nth 0 a x00.
Proof. intros Hl. apply app_nth1, Hl. Qed.

(** C9.  (1) Whatever the last two bytes of a response of at least 15
    bytes not headed by NAK are, it is decoded, its text being the bytes
    from offset 13 up to those two.  (2) In a response headed by NAK, the
    bytes from offset 15 on do not influence the result, as long as there
    are at least two of them.  (3) Decoding fails exactly on the two length
    conditions. *)
Theorem terminator_is_not_inspected :
  (forall (body : bytes) (x y x' y' : Byte.byte),
     13 <= length body -> nth 0 body x00 <> NAK ->
     exists p,
       parse_response_frame (body ++ [x; y]) = Some p /\
       parse_response_frame (body ++ [x'; y']) = Some p /\
       text_data p = decode_ascii_ignore (skipn 13 body)) /\
  (forall (head tail tail' : bytes),
     length head = 15 -> nth 0 head x00 = NAK ->
     2 <= length tail -> 2 <= length tail' ->
     exists p,
       parse_response_frame (head ++ tail) = Some p /\
       parse_response_frame (head ++ tail') = Some p) /\
  (forall resp : bytes,
     parse_response_frame resp = None <->
     length resp < 15 \/ (nth 0 resp x00 = NAK /\ length resp < 17)).
Proof.
  split; [|split].
  - intros body x y x' y' Hl Hh.
    assert (Hparse : forall a b,
      parse_response_frame (body ++ [a; b]) =
      Some {| header_byte := nth 0 body x00;
              header_str := parse_header (nth 0 body x00);
              unit_no := decode_ascii_ignore (firstn 2 (skipn 1 body));
              channel_no := decode_ascii_ignore (firstn 2 (skipn 3 body));
              cmd_code := decode_ascii_ignore (firstn 8 (skipn 5 body));
              error_code := None;
              text_data := decode_ascii_ignore (skipn 13 body) |}).
    { intros a b.
      rewrite parse_response_frame_text.
      - unfold text_field.
        rewrite !field_app, nth_0_app by (try rewrite length_app; simpl; lia).
        rewrite length_app. simpl length.
        replace (length body + 2 - 15) with (length body - 13) by lia.
        rewrite <- (length_skipn 13 body), firstn_all. reflexivity.
      - rewrite length_app. simpl. lia.
      - rewrite nth_0_app by lia. assumption. }
    eexists. split; [apply Hparse|]. split; [apply Hparse | reflexivity].
  - intros head tail tail' Hl Hh Ht Ht'.
    assert (Hparse : forall tl, 2 <= length tl ->
      parse_response_frame (head ++ tl) =
      Some {| header_byte := NAK;
              header_str := lit "NAK";
              unit_no := decode_ascii_ignore (firstn 2 (skipn 1 head));
              channel_no := decode_ascii_ignore (firstn 2 (skipn 3 head));
              cmd_code := decode_ascii_ignore (firstn 8 (skipn 5 head));
              error_code := Some (decode_ascii_ignore (firstn 2 (skipn 13 head)));
              text_data := [] |}).
    { intros tl Htl.
      rewrite parse_response_frame_nak.
      - rewrite !field_app by lia. reflexivity.
      - rewrite length_app. lia.
      - rewrite nth_0_app by lia. assumption. }
    eexists. split; apply Hparse; assumption.
  - apply parse_response_frame_None.
Qed.

Lemma terminator_is_not_inspected_witness :
  (exists p,
     parse_response_frame (x06 :: blit "0102GROSS___+12.5" ++ CRLF) = Some p /\
     parse_response_frame (x06 :: blit "0102GROSS___+12.5" ++ blit "zz") = Some p /\
     text_data p = lit "+12.5") /\
  (exists p,
     parse_response_frame (NAK :: blit "0102GROSS___E7" ++ CRLF) = Some p /\
     parse_response_frame (NAK :: blit "0102GROSS___E7" ++ blit "junk") = Some p) /\
  parse_response_frame (NAK :: blit "0102GROSS___E") = None.
Proof.
  destruct terminator_is_not_inspected as [H1 [H2 H3]].
  split; [|split].
  - apply (H1 (x06 :: blit "0102GROSS___+12.5") x0d x0a "z"%byte "z"%byte).
    + simpl. lia.
    + simpl. discriminate.
  - apply (H2 (NAK :: blit "0102GROSS___E7") CRLF (blit "junk")).
    + reflexivity.
    + reflexivity.
    + simpl. lia.
    + simpl. lia.
  - apply H3. right. split; [reflexivity | simpl; lia].
Defined.

(** ** C4: the cutout stops after a failed first step *)

(** The FF______ and CFW_____ requests for the same addresses differ. *)
Lemma FF_frame_is_not_CFW_frame (u c text : pystr) (ff cfw : bytes) :
  build_command_frame u c (lit "FF______") text = inr ff ->
  build_command_frame u c (lit "CFW_____") [] = inr cfw ->
  cfw <> ff.
Proof.
  intros Eff Ecfw.
  destruct (build_command_frame_inr _ _ _ _ _ Eff)
    as [_ (ub & cb & kb & tb & Eu & Ec & Ek & _ & ->)].
  destruct (build_command_frame_inr _ _ _ _ _ Ecfw)
    as [_ (ub' & cb' & kb' & tb' & Eu' & Ec' & Ek' & _ & ->)].
  rewrite Eu in Eu'; injection Eu' as <-.
  rewrite Ec in Ec'; injection Ec' as <-.
  vm_compute in Ek; injection Ek as <-.
  vm_compute in Ek'; injection Ek' as <-.
  intros E. injection E as E.
  apply app_inv_head in E. apply app_inv_head in E.
  discriminate E.
Qed.

Section Operations.
Context {port : Type} `{Serial port} `{Builtins}.

(** C4.  When the read that follows the FF______ request returns
    nothing, bytes that do not decode, or a frame headed by NAK,
    [cut_out_amount] returns [False]; the only frame it has written is
    the FF______ request, which is not the CFW_____ request, and the port
    is left as that single exchange left it. *)
Theorem cut_out_amount_stops_after_failed_FF
    (u c : pystr) (amount : pyfloat) (w : world port)
    (frame resp : bytes) (p' : port) :
  build_command_frame u c (lit "FF______") (text_value amount) = inr frame ->
  ser_read_until CRLF (ser_write frame (ser w)) = (resp, p') ->
  resp = [] \/ parse_response_frame resp = None \/ nth 0 resp x00 = NAK ->
  exists w',
    cut_out_amount u c amount w = (inr false, w') /\
    ser w' = p' /\
    sent w' = sent w ++ [frame] /\
    forall cfw,
      build_command_frame u c (lit "CFW_____") [] = inr cfw -> cfw <> frame.
Proof.
  intros E Hr Hf.
  pose proof (not_accepted_parse resp Hf) as Hn.
  unfold cut_out_amount, bind.
  rewrite send_command_eq, E, Hr.
  assert (Hcfw : forall cfw,
    build_command_frame u c (lit "CFW_____") [] = inr cfw -> cfw <> frame)
    by (intros cfw; apply FF_frame_is_not_CFW_frame with (1 := E)).
  destruct resp as [|b resp].
  - eexists. split; [reflexivity|]. auto.
  - destruct (parse_response_frame (b :: resp)) as [p|].
    + rewrite Hn. eexists. split; [reflexivity|]. auto.
    + eexists. split; [reflexivity|]. auto.
Qed.

(** ** C5: the two failures of an exchange *)

(** C5, amended.  When the read returns no bytes and when it returns
    bytes that do not decode, [send_command] returns the same value,
    [None]; the two cases differ only in the lines printed: the
    no-response line in the first, the raw response and the parse error
    line in the second. *)
Theorem send_command_failures_both_return_None
    (u c k t : pystr) (w : world port) (frame resp : bytes) (p' : port) :
  build_command_frame u c k t = inr frame ->
  ser_read_until CRLF (ser_write frame (ser w)) = (resp, p') ->
  (resp = [] ->
     send_command u c k t w =
     (inr None,
      mkWorld p' (sent w ++ [frame]) (stdout w ++ [msg_no_response k]))) /\
  (resp <> [] -> parse_response_frame resp = None ->
     send_command u c k t w =
     (inr None,
      mkWorld p' (sent w ++ [frame])
        (stdout w ++ [msg_raw_response resp; msg_parse_error]))).
Proof.
  intros E Hr. rewrite send_command_eq, E, Hr.
  split.
  - intros ->. reflexivity.
  - intros Hne Hp. destruct resp; [contradiction|].
    rewrite Hp. reflexivity.
Qed.

(** ** C7: no response *)

(** C7, amended.  On a port whose read, whatever request was written,
    returns no bytes, and for ASCII [unit_no] and [channel_no],
    [get_current_weight] returns [None] and [discharge_all] returns
    [False]. *)
Theorem no_response_gives_None_and_False (u c : pystr) (w : world port) :
  (forall frame, fst (ser_read_until CRLF (ser_write frame (ser w))) = []) ->
  is_ascii u -> is_ascii c ->
  fst (get_current_weight u c w) = inr None /\
  fst (discharge_all u c w) = inr false.
Proof.
  intros Hr Au Ac. split.
  - destruct (build_command_frame_total u c (lit "GROSS___") [])
      as [frame E]; try assumption;
      [apply is_ascii_lit_GROSS | constructor | simpl; lia |].
    destruct (send_command_no_response _ _ _ _ w frame E (Hr _)) as [w' Hs].
    unfold get_current_weight, bind. rewrite Hs. reflexivity.
  - destruct (build_command_frame_total u c (lit "FDIS____") [])
      as [frame E]; try assumption;
      [apply is_ascii_lit_FDIS | constructor | simpl; lia |].
    destruct (send_command_no_response _ _ _ _ w frame E (Hr _)) as [w' Hs].
    unfold discharge_all, bind. rewrite Hs. reflexivity.
Qed.

(** ** C10: characters outside ASCII in the request *)

(** C10, amended.  When [unit_no], [channel_no] or [text] contains a
    character outside ASCII, [build_command_frame] builds no frame and
    [send_command] raises with the world untouched (nothing written,
    nothing printed).  The exception is the encoding error when the
    command code has at most 8 characters, and the [ValueError] of line
    48 when it is longer, that test coming first. *)
Theorem non_ascii_request_is_rejected (u c k t : pystr) (w : world port) :
  has_non_ascii u \/ has_non_ascii c \/ has_non_ascii t ->
  (length k <= 8 ->
     build_command_frame u c k t = inl UnicodeEncodeError /\
     send_command u c k t w = (inl UnicodeEncodeError, w)) /\
  (8 < length k ->
     build_command_frame u c k t = inl ValueError /\
     send_command u c k t w = (inl ValueError, w)) /\
  (forall frame, build_command_frame u c k t <> inr frame).
Proof.
  intros Hn.
  assert (H8 : length k <= 8 ->
               build_command_frame u c k t = inl UnicodeEncodeError)
    by (intros; apply build_command_frame_non_ascii; assumption).
  assert (H9 : 8 < length k -> build_command_frame u c k t = inl ValueError)
    by apply build_command_frame_too_long.
  split; [|split].
  - intros Hl. split; [|apply send_command_raises]; auto.
  - intros Hl. split; [|apply send_command_raises]; auto.
  - intros frame E.
    destruct (Nat.le_gt_cases (length k) 8) as [Hl|Hl];
      [rewrite (H8 Hl) in E | rewrite (H9 Hl) in E]; discriminate E.
Qed.

End Operations.

Lemma cut_out_amount_stops_after_failed_FF_witness :
  exists w',
    cut_out_amount (lit "00") (lit "00") f120
      (fresh [NAK :: blit "0000FF______E1" ++ CRLF]) = (inr false, w') /\
    ser w' = [] /\
    sent w' = [ENQ :: blit "0000FF______+000120.000" ++ CRLF] /\
    forall cfw,
      build_command_frame (lit "00") (lit "00") (lit "CFW_____") [] = inr cfw ->
      cfw <> ENQ :: blit "0000FF______+000120.000" ++ CRLF.
Proof.
  apply (cut_out_amount_stops_after_failed_FF
           (lit "00") (lit "00") f120
           (fresh [NAK :: blit "0000FF______E1" ++ CRLF])
           (ENQ :: blit "0000FF______+000120.000" ++ CRLF)
           (NAK :: blit "0000FF______E1" ++ CRLF) []).
  - reflexivity.
  - reflexivity.
  - right; right; reflexivity.
Defined.

(** C5, as stated, fails: the value returned for a read of no bytes and
    the value returned for a read of bytes that do not decode (here a bare
    CR LF) are the same [None]. *)
Lemma send_command_failures_are_not_distinguished :
  fst (ser_read_until CRLF (ser (fresh []))) = [] /\
  fst (ser_read_until CRLF (ser (fresh [CRLF]))) = CRLF /\
  parse_response_frame CRLF = None /\
  fst (send_command (lit "00") (lit "00") (lit "GROSS___") [] (fresh [])) = inr None /\
  fst (send_command (lit "00") (lit "00") (lit "GROSS___") [] (fresh [CRLF])) = inr None /\
  ~ (fst (send_command (lit "00") (lit "00") (lit "GROSS___") [] (fresh []))
     <> fst (send_command (lit "00") (lit "00") (lit "GROSS___") [] (fresh [CRLF]))).
Proof.
  repeat split. intros Hd. apply Hd. reflexivity.
Qed.

Lemma send_command_failures_both_return_None_witness :
  send_command (lit "00") (lit "00") (lit "GROSS___") [] (fresh []) =
    (inr None,
     mkWorld [] [ENQ :: blit "0000GROSS___" ++ CRLF]
       [msg_no_response (lit "GROSS___")]) /\
  send_command (lit "00") (lit "00") (lit "GROSS___") [] (fresh [CRLF]) =
    (inr None,
     mkWorld [] [ENQ :: blit "0000GROSS___" ++ CRLF]
       [msg_raw_response CRLF; msg_parse_error]).
Proof.
  split.
  - destruct (send_command_failures_both_return_None
                (lit "00") (lit "00") (lit "GROSS___") [] (fresh [])
                (ENQ :: blit "0000GROSS___" ++ CRLF) [] [])
      as [H1 _]; [reflexivity | reflexivity |].
    apply H1. reflexivity.
  - destruct (send_command_failures_both_return_None
                (lit "00") (lit "00") (lit "GROSS___") [] (fresh [CRLF])
                (ENQ :: blit "0000GROSS___" ++ CRLF) CRLF [])
      as [_ H2]; [reflexivity | reflexivity |].
    apply H2; [discriminate | reflexivity].
Defined.

(** C7, as stated, fails: on a port whose reads never return a byte, with
    the character U+00E9 as [unit_no], both operations raise the encoding
    error of line 52 instead of returning [None] and [False]. *)
Lemma no_response_raises_on_non_ascii_unit_no :
  (forall terminator p,
     fst (@ser_read_until unit silent_serial terminator p) = []) /\
  @get_current_weight unit silent_serial no_float
    [233%N] (lit "00") (mkWorld tt [] [])
    = (inl UnicodeEncodeError, mkWorld tt [] []) /\
  @discharge_all unit silent_serial [233%N] (lit "00") (mkWorld tt [] [])
    = (inl UnicodeEncodeError, mkWorld tt [] []) /\
  fst (@get_current_weight unit silent_serial no_float
         [233%N] (lit "00") (mkWorld tt [] [])) <> inr None /\
  fst (@discharge_all unit silent_serial
         [233%N] (lit "00") (mkWorld tt [] [])) <> inr false.
Proof.
  split; [intros terminator p; reflexivity|].
  split; [reflexivity|]. split; [reflexivity|].
  split; vm_compute; discriminate.
Qed.

Lemma no_response_gives_None_and_False_witness :
  fst (@get_current_weight script scripted_serial no_float
         (lit "00") (lit "00") (fresh [])) = inr None /\
  fst (discharge_all (lit "00") (lit "00") (fresh [])) = inr false.
Proof.
  apply (@no_response_gives_None_and_False script scripted_serial no_float
           (lit "00") (lit "00") (fresh [])).
  - intros frame. reflexivity.
  - repeat constructor.
  - repeat constructor.
Defined.

(** C10, as stated, fails: with a command code of 9 characters the
    exception is the [ValueError] of line 48, not an encoding error, even
    though [unit_no] holds the character U+00E9. *)
Lemma long_cmd_code_raises_before_encoding :
  has_non_ascii [233%N] /\
  build_command_frame [233%N] (lit "00") (lit "123456789") [] = inl ValueError /\
  build_command_frame [233%N] (lit "00") (lit "123456789") []
    <> inl UnicodeEncodeError.
Proof.
  split; [|split].
  - apply Exists_cons_hd. vm_compute. discriminate.
  - reflexivity.
  - vm_compute. discriminate.
Qed.

Lemma non_ascii_request_is_rejected_witness :
  send_command [233%N] (lit "00") (lit "GROSS___") [] (fresh [CRLF]) =
    (inl UnicodeEncodeError, fresh [CRLF]) /\
  send_command (lit "00") (lit "00") (lit "123456789") [233%N] (fresh [CRLF]) =
    (inl ValueError, fresh [CRLF]).
Proof.
  split.
  - destruct (non_ascii_request_is_rejected
                [233%N] (lit "00") (lit "GROSS___") [] (fresh [CRLF]))
      as [H8 _].
    + left. apply Exists_cons_hd. vm_compute. discriminate.
    + apply H8. simpl. lia.
  - destruct (non_ascii_request_is_rejected
                (lit "00") (lit "00") (lit "123456789") [233%N] (fresh [CRLF]))
      as [_ [H9 _]].
    + right; right. apply Exists_cons_hd. vm_compute. discriminate.
    + apply H9. simpl. lia.
Defined.

(** * Further properties of the controller *)

(** ** Header strings *)

Lemma all_bytes_complete (b : Byte.byte) : In b all_bytes.
Proof.
  replace b with (nth (Byte.to_nat b) all_bytes x00) by (destruct b; reflexivity).
  apply nth_In.
  pose proof (Byte.to_nat_bounded b) as Hb.
  change (length all_bytes) with 256. lia.
Qed.

Lemma parse_header_row (a : Byte.byte) :
  forallb (fun b => implb (pystr_eqb (parse_header a) (parse_header b))
                          (Byte.eqb a b)) all_bytes = true.
Proof. destruct a; vm_compute; reflexivity. Qed.

Lemma parse_header_same_string (a b : Byte.byte) :
  pystr_eqb (parse_header a) (parse_header b) = true -> a = b.
Proof.
  intros E.
  pose proof (parse_header_row a) as Hrow.
  rewrite forallb_forall in Hrow.
  specialize (Hrow b (all_bytes_complete b)).
  rewrite E in Hrow. simpl in Hrow.
  apply Byte.byte_dec_bl, Hrow.
Qed.

(** X1.  [parse_header] is injective: two different header bytes never
    get the same string, so [header_str] identifies the byte received. *)
Theorem parse_header_injective (a b : Byte.byte) :
  parse_header a = parse_header b -> a = b.
Proof.
  intros E. apply parse_header_same_string, pystr_eqb_eq, E.
Qed.

Lemma parse_header_injective_witness : x06 = x06.
Proof. apply parse_header_injective. reflexivity. Defined.

(** X2.  The three named headers are given to exactly the bytes 0x02,
    0x06 and 0x15; every other byte gets a 13-character string, hence none
    of the three names. *)
Theorem parse_header_classification (b : Byte.byte) :
  (parse_header b = lit "STX" <-> b = x02) /\
  (parse_header b = lit "ACK" <-> b = x06) /\
  (parse_header b = lit "NAK" <-> b = x15) /\
  (b <> x02 -> b <> x06 -> b <> x15 -> length (parse_header b) = 13).
Proof.
  split; [|split; [|split]].
  - split; [intros E; apply parse_header_same_string, pystr_eqb_eq, E | intros ->; reflexivity].
  - split; [intros E; apply parse_header_same_string, pystr_eqb_eq, E | intros ->; reflexivity].
  - split; [intros E; apply parse_header_same_string, pystr_eqb_eq, E | intros ->; reflexivity].
  - intros H2 H6 H15. unfold parse_header.
    destruct (Byte.eqb b x02) eqn:E2; [apply Byte.byte_dec_bl in E2; contradiction|].
    destruct (Byte.eqb b x06) eqn:E6; [apply Byte.byte_dec_bl in E6; contradiction|].
    destruct (Byte.eqb b x15) eqn:E15; [apply Byte.byte_dec_bl in E15; contradiction|].
    reflexivity.
Qed.

Lemma parse_header_classification_witness :
  length (parse_header xff) = 13 /\ x15 = x15.
Proof.
  destruct (parse_header_classification xff) as (_ & _ & _ & H).
  destruct (parse_header_classification x15) as (_ & _ & [H15 _] & _).
  split; [apply H; discriminate | apply H15; reflexivity].
Defined.

(** ** Building requests *)

Lemma encode_ascii_app (a b : pystr) :
  encode_ascii (a ++ b) =
  rbind (encode_ascii a) (fun x =>
  rbind (encode_ascii b) (fun y => ok (x ++ y))).
Proof.
  induction a as [|ch a IH]; simpl.
  - destruct (encode_ascii b); reflexivity.
  - destruct (ch <? 128)%N; [|reflexivity].
    destruct (Byte.of_N ch); [|reflexivity].
    rewrite IH.
    destruct (encode_ascii a); simpl; [reflexivity|].
    destruct (encode_ascii b); reflexivity.
Qed.

Lemma encode_ascii_bytes (s : pystr) (bs : bytes) :
  encode_ascii s = inr bs -> ascii_bytes bs.
Proof.
  intros E. apply encode_ascii_inr in E as [<- Ha].
  unfold ascii_bytes. unfold is_ascii in Ha.
  rewrite Forall_map in Ha. exact Ha.
Qed.

Lemma is_ascii_app_inv (a b : pystr) :
  is_ascii (a ++ b) -> is_ascii a /\ is_ascii b.
Proof. apply Forall_app. Qed.

(** X3.  [build_command_frame] returns a frame exactly when the command
    code has at most 8 characters and all four fields, the command code
    included, are ASCII.  It raises the [ValueError] exactly when the code
    is longer than 8 characters, and the encoding error exactly when the
    code is short enough and some field is not ASCII. *)
Theorem build_command_frame_outcomes (u c k t : pystr) :
  ((exists frame, build_command_frame u c k t = inr frame) <->
   length k <= 8 /\ is_ascii u /\ is_ascii c /\ is_ascii k /\ is_ascii t) /\
  (build_command_frame u c k t = inl ValueError <-> 8 < length k) /\
  (build_command_frame u c k t = inl UnicodeEncodeError <->
   length k <= 8 /\
   (has_non_ascii u \/ has_non_ascii c \/ has_non_ascii k \/ has_non_ascii t)).
Proof.
  assert (Hok : forall frame, build_command_frame u c k t = inr frame ->
    length k <= 8 /\ is_ascii u /\ is_ascii c /\ is_ascii k /\ is_ascii t).
  { intros frame E.
    destruct (build_command_frame_inr _ _ _ _ _ E)
      as [Lk (ub & cb & kb & tb & Eu & Ec & Ek & Et & _)].
    apply encode_ascii_inr in Eu as [_ Hu].
    apply encode_ascii_inr in Ec as [_ Hc].
    apply encode_ascii_inr in Ek as [_ Hk].
    apply encode_ascii_inr in Et as [_ Ht].
    apply is_ascii_app_inv in Hk as [Hk _]. auto. }
  split; [|split].
  - split.
    + intros [frame E]. apply (Hok frame E).
    + intros (Lk & Hu & Hc & Hk & Ht). apply build_command_frame_total; assumption.
  - split.
    + intros E. apply build_command_frame_failure in E as [[_ H9]|[H _]];
        [assumption | discriminate H].
    + apply build_command_frame_too_long.
  - split.
    + intros E. apply build_command_frame_failure in E as [[H _]|[_ H]];
        [discriminate H | assumption].
    + intros [Lk Hn].
      destruct (build_command_frame u c k t) as [e|frame] eqn:E.
      * apply build_command_frame_failure in E as [[_ H9]|[-> _]];
          [lia | reflexivity].
      * exfalso. destruct (Hok frame eq_refl) as (_ & Hu & Hc & Hk & Ht).
        destruct Hn as [Hn|[Hn|[Hn|Hn]]];
          [ apply (not_ascii_non_ascii u) | apply (not_ascii_non_ascii c)
          | apply (not_ascii_non_ascii k) | apply (not_ascii_non_ascii t) ];
          assumption.
Qed.

Lemma build_command_frame_outcomes_witness :
  (exists frame,
     build_command_frame (lit "01") (lit "02") (lit "CFW") (lit "x") = inr frame) /\
  build_command_frame (lit "01") (lit "02") (lit "123456789") [] = inl ValueError /\
  build_command_frame (lit "01") (lit "02") [233%N] [] = inl UnicodeEncodeError.
Proof.
  split; [|split].
  - destruct (build_command_frame_outcomes (lit "01") (lit "02") (lit "CFW") (lit "x"))
      as [[_ H] _].
    apply H. repeat split; solve [simpl; lia | repeat constructor].
  - destruct (build_command_frame_outcomes (lit "01") (lit "02") (lit "123456789") [])
      as [_ [[_ H] _]].
    apply H. simpl. lia.
  - destruct (build_command_frame_outcomes (lit "01") (lit "02") [233%N] [])
      as [_ [_ [_ H]]].
    apply H. split; [simpl; lia|].
    right; right; left. apply Exists_cons_hd. vm_compute. discriminate.
Defined.

(** X4.  Every frame that is built starts with ENQ, ends with CR LF, is
    11 bytes longer than the address fields and the text together, and
    holds ASCII bytes only. *)
Theorem built_frame_shape (u c k t : pystr) (frame : bytes) :
  build_command_frame u c k t = inr frame ->
  length frame = 11 + length u + length c + length t /\
  (exists body, frame = ENQ :: body ++ CRLF) /\
  ascii_bytes frame.
Proof.
  intros E.
  destruct (build_command_frame_inr _ _ _ _ _ E)
    as [Lk (ub & cb & kb & tb & Eu & Ec & Ek & Et & ->)].
  pose proof (encode_ascii_length _ _ Eu) as Hu.
  pose proof (encode_ascii_length _ _ Ec) as Hc.
  pose proof (encode_ascii_length _ _ Ek) as Hk.
  pose proof (encode_ascii_length _ _ Et) as Ht.
  rewrite length_app, repeat_length in Hk.
  replace (length k + (8 - length k)) with 8 in Hk by lia.
  split; [|split].
  - simpl. rewrite !length_app, Hu, Hc, Hk, Ht. simpl. lia.
  - exists (ub ++ cb ++ kb ++ tb). rewrite <- !app_assoc. reflexivity.
  - unfold ascii_bytes. constructor; [reflexivity|].
    repeat (apply Forall_app; split);
      try (eapply encode_ascii_bytes; eassumption).
    repeat constructor.
Qed.

Lemma built_frame_shape_witness :
  length (ENQ :: blit "0102CFW_____" ++ CRLF) = 11 + 2 + 2 + 0 /\
  (exists body, ENQ :: blit "0102CFW_____" ++ CRLF = ENQ :: body ++ CRLF) /\
  ascii_bytes (ENQ :: blit "0102CFW_____" ++ CRLF).
Proof.
  apply (built_frame_shape (lit "01") (lit "02") (lit "CFW") []).
  reflexivity.
Defined.

(** X5.  Padding is idempotent: a command code of at most 8 characters
    and the same code already padded with ['_'] give the same outcome, frame
    or exception. *)
Theorem build_command_frame_padded_code (u c k t : pystr) :
  length k <= 8 ->
  build_command_frame u c (k ++ repeat 95%N (8 - length k)) t
  = build_command_frame u c k t.
Proof.
  intros Lk. rewrite !build_command_frame_eq.
  rewrite length_app, repeat_length.
  replace (length k + (8 - length k)) with 8 by lia.
  destruct (Nat.ltb_spec 8 (length k)); [lia|].
  simpl. rewrite app_nil_r. reflexivity.
Qed.

Lemma build_command_frame_padded_code_witness :
  build_command_frame (lit "01") (lit "02") (lit "GROSS___") []
  = build_command_frame (lit "01") (lit "02") (lit "GROSS") [].
Proof.
  apply (build_command_frame_padded_code (lit "01") (lit "02") (lit "GROSS") []).
  simpl. lia.
Defined.

(** X6.  The widths of the address fields are not checked: the outcome
    depends only on the concatenation of [unit_no] and [channel_no], so
    moving characters from the end of one to the start of the other goes
    unnoticed. *)
Theorem build_command_frame_address_split (u x c k t : pystr) :
  build_command_frame (u ++ x) c k t = build_command_frame u (x ++ c) k t.
Proof.
  rewrite !build_command_frame_eq.
  destruct (8 <? length k); [reflexivity|].
  rewrite (encode_ascii_app u x), (encode_ascii_app x c).
  destruct (encode_ascii u) as [e|ub]; cbn [rbind ok]; [reflexivity|].
  destruct (encode_ascii x) as [e|xb]; cbn [rbind ok]; [reflexivity|].
  destruct (encode_ascii c) as [e|cb]; cbn [rbind ok]; [reflexivity|].
  destruct (encode_ascii (k ++ _)) as [e|kb]; cbn [rbind ok]; [reflexivity|].
  destruct (encode_ascii t) as [e|tb]; cbn [rbind ok]; [reflexivity|].
  rewrite <- !app_assoc. reflexivity.
Qed.

(** ** Decoding built requests *)

Lemma parse_built_request (u c k t : pystr) (frame : bytes) :
  length u = 2 -> length c = 2 ->
  build_command_frame u c k t = inr frame ->
  parse_response_frame frame =
  Some {| header_byte := ENQ;
          header_str := lit "UNKNOWN(0x05)";
          unit_no := u;
          channel_no := c;
          cmd_code := k ++ repeat 95%N (8 - length k);
          error_code := None;
          text_data := t |}.
Proof.
  intros Lu Lc E.
  destruct (build_command_frame_inr _ _ _ _ _ E)
    as [Lk (ub & cb & kb & tb & Eu & Ec & Ek & Et & ->)].
  pose proof (encode_ascii_length _ _ Eu) as Hu. rewrite Lu in Hu.
  pose proof (encode_ascii_length _ _ Ec) as Hc. rewrite Lc in Hc.
  pose proof (encode_ascii_length _ _ Ek) as Hk.
  rewrite length_app, repeat_length in Hk.
  replace (length k + (8 - length k)) with 8 in Hk by lia.
  destruct (request_fields ub cb kb tb Hu Hc Hk) as (F1 & F3 & F5 & F13).
  rewrite parse_response_frame_text.
  - rewrite F1, F3, F5, F13.
    rewrite (decode_encode _ _ Eu), (decode_encode _ _ Ec),
      (decode_encode _ _ Ek), (decode_encode _ _ Et).
    reflexivity.
  - simpl. rewrite !length_app, Hu, Hc, Hk. simpl. lia.
  - simpl. discriminate.
Qed.

(** X7.  Decoding a request built for 2-character address fields gives
    back every field: the addresses, the padded command code and the text;
    there is no error code, and the ENQ header is reported as
    [UNKNOWN(0x05)]. *)
Theorem request_decodes_to_its_fields (u c k t : pystr) (frame : bytes) :
  length u = 2 -> length c = 2 ->
  build_command_frame u c k t = inr frame ->
  exists p,
    parse_response_frame frame = Some p /\
    unit_no p = u /\ channel_no p = c /\
    cmd_code p = k ++ repeat 95%N (8 - length k) /\
    text_data p = t /\ error_code p = None /\
    header_byte p = ENQ /\ header_str p = lit "UNKNOWN(0x05)".
Proof.
  intros Lu Lc E. eexists.
  split; [apply (parse_built_request u c k t); assumption|].
  repeat split.
Qed.

Lemma request_decodes_to_its_fields_witness :
  exists p,
    parse_response_frame (ENQ :: blit "0102FF______+1.5" ++ CRLF) = Some p /\
    unit_no p = lit "01" /\ channel_no p = lit "02" /\
    cmd_code p = lit "FF______" /\
    text_data p = lit "+1.5" /\ error_code p = None /\
    header_byte p = ENQ /\ header_str p = lit "UNKNOWN(0x05)".
Proof.
  apply (request_decodes_to_its_fields (lit "01") (lit "02") (lit "FF") (lit "+1.5"));
    reflexivity.
Defined.

(** X8.  For 2-character address fields the frame determines the
    request: two requests that build the same frame have the same
    addresses, the same text and the same command code up to padding. *)
Theorem build_command_frame_injective
    (u c k t u' c' k' t' : pystr) (frame : bytes) :
  length u = 2 -> length c = 2 -> length u' = 2 -> length c' = 2 ->
  build_command_frame u c k t = inr frame ->
  build_command_frame u' c' k' t' = inr frame ->
  u = u' /\ c = c' /\ t = t' /\
  k ++ repeat 95%N (8 - length k) = k' ++ repeat 95%N (8 - length k').
Proof.
  intros Lu Lc Lu' Lc' E E'.
  pose proof (parse_built_request u c k t frame Lu Lc E) as P.
  rewrite (parse_built_request u' c' k' t' frame Lu' Lc' E') in P.
  injection P as Hu Hc Hk Ht. auto.
Qed.

Lemma build_command_frame_injective_witness :
  lit "01" = lit "01" /\ lit "02" = lit "02" /\ @nil char = [] /\
  lit "CFW" ++ repeat 95%N (8 - 3) = lit "CFW_____" ++ repeat 95%N (8 - 8).
Proof.
  apply (build_command_frame_injective
           (lit "01") (lit "02") (lit "CFW") []
           (lit "01") (lit "02") (lit "CFW_____") []
           (ENQ :: blit "0102CFW_____" ++ CRLF)); reflexivity.
Defined.

(** ** What a decoded response looks like *)

Lemma decode_ascii_ignore_is_ascii (bs : bytes) :
  is_ascii (decode_ascii_ignore bs).
Proof.
  induction bs as [|b bs IH]; simpl; [constructor|].
  destruct (N.ltb_spec (Byte.to_N b) 128); [constructor|]; assumption.
Qed.

Lemma decode_ascii_ignore_length (bs : bytes) :
  length (decode_ascii_ignore bs) <= length bs.
Proof.
  induction bs as [|b bs IH]; simpl; [lia|].
  destruct (Byte.to_N b <? 128)%N; simpl; lia.
Qed.

Lemma decode_ascii_bytes (bs : bytes) :
  ascii_bytes bs -> decode_ascii_ignore bs = map Byte.to_N bs.
Proof.
  induction 1 as [|b bs Hb _ IH]; simpl; [reflexivity|].
  apply N.ltb_lt in Hb. rewrite Hb, IH. reflexivity.
Qed.

Lemma encode_ascii_of_bytes (bs : bytes) :
  ascii_bytes bs -> encode_ascii (map Byte.to_N bs) = inr bs.
Proof.
  induction 1 as [|b bs Hb _ IH]; simpl; [reflexivity|].
  apply N.ltb_lt in Hb. rewrite Hb, Byte.of_to_N, IH. reflexivity.
Qed.

(** Every result of [parse_response_frame], in one of two shapes. *)
Lemma parse_response_frame_Some (resp : bytes) (p : parsed) :
  parse_response_frame resp = Some p ->
  15 <= length resp /\
  unit_no p = decode_ascii_ignore (firstn 2 (skipn 1 resp)) /\
  channel_no p = decode_ascii_ignore (firstn 2 (skipn 3 resp)) /\
  cmd_code p = decode_ascii_ignore (firstn 8 (skipn 5 resp)) /\
  header_byte p = nth 0 resp x00 /\
  header_str p = parse_header (nth 0 resp x00) /\
  ((nth 0 resp x00 = NAK /\ 17 <= length resp /\
    error_code p = Some (decode_ascii_ignore (firstn 2 (skipn 13 resp))) /\
    text_data p = []) \/
   (nth 0 resp x00 <> NAK /\
    error_code p = None /\
    text_data p = decode_ascii_ignore (text_field resp))).
Proof.
  intros E.
  assert (Hn : parse_response_frame resp <> None) by (rewrite E; discriminate).
  rewrite parse_response_frame_None in Hn.
  assert (H15 : 15 <= length resp) by lia.
  destruct (Byte.byte_eq_dec (nth 0 resp x00) NAK) as [Hh|Hh].
  - assert (H17 : 17 <= length resp).
    { destruct (Nat.lt_ge_cases (length resp) 17); [|assumption].
      exfalso. apply Hn. right. split; assumption. }
    rewrite parse_response_frame_nak in E by assumption.
    injection E as <-. cbn.
    rewrite Hh. repeat split; try assumption. left. repeat split; assumption.
  - rewrite parse_response_frame_text in E by assumption.
    injection E as <-. cbn.
    repeat split; try assumption. right. repeat split; assumption.
Qed.

(** X9.  In a decoded response the error code is present exactly when the
    header byte is NAK, which is exactly when the header string is [NAK];
    a NAK response has an empty text, so error code and text never occur
    together. *)
Theorem error_code_iff_NAK (resp : bytes) (p : parsed) :
  parse_response_frame resp = Some p ->
  (error_code p <> None <-> header_byte p = NAK) /\
  (header_str p = lit "NAK" <-> header_byte p = NAK) /\
  (error_code p <> None -> text_data p = []).
Proof.
  intros E.
  destruct (parse_response_frame_Some resp p E)
    as (_ & _ & _ & _ & Hb & Hs & [(Hh & _ & He & Ht) | (Hh & He & Ht)]);
    rewrite Hb, Hs, He, parse_header_NAK.
  - repeat split; try tauto; try discriminate.
  - repeat split; try tauto; intros H; contradiction.
Qed.

Lemma error_code_iff_NAK_witness :
  parse_response_frame (NAK :: blit "0102GROSS___E7" ++ CRLF) =
  Some {| header_byte := NAK; header_str := lit "NAK";
          unit_no := lit "01"; channel_no := lit "02";
          cmd_code := lit "GROSS___";
          error_code := Some (lit "E7"); text_data := [] |} /\
  (Some (lit "E7") <> None <-> NAK = NAK).
Proof.
  split; [reflexivity|].
  apply (error_code_iff_NAK (NAK :: blit "0102GROSS___E7" ++ CRLF)
           {| header_byte := NAK; header_str := lit "NAK";
              unit_no := lit "01"; channel_no := lit "02";
              cmd_code := lit "GROSS___";
              error_code := Some (lit "E7"); text_data := [] |}).
  reflexivity.
Defined.

Lemma Forall_firstn_skipn {A} (P : A -> Prop) (n m : nat) (l : list A) :
  Forall P l -> Forall P (firstn n (skipn m l)).
Proof.
  intros H. rewrite Forall_forall in *. intros x Hx.
  apply H.
  rewrite <- (firstn_skipn m l). apply in_or_app. right.
  rewrite <- (firstn_skipn n (skipn m l)). apply in_or_app. left. exact Hx.
Qed.

Lemma firstn_plus {A} (a b : nat) (l : list A) :
  firstn (a + b) l = firstn a l ++ firstn b (skipn a l).
Proof.
  revert l; induction a as [|a IH]; intros l; [reflexivity|].
  destruct l as [|x l]; simpl.
  - rewrite firstn_nil. reflexivity.
  - rewrite IH. reflexivity.
Qed.

(** X10.  Whatever bytes were received, the strings of a decoded response
    are ASCII and no longer than their fields (2, 2 and 8 characters, 2 for
    the error code, the response length less 15 for the text); in
    particular they can always be framed again as a request. *)
Theorem decoded_fields_are_ascii_and_bounded (resp : bytes) (p : parsed) :
  parse_response_frame resp = Some p ->
  (is_ascii (unit_no p) /\ length (unit_no p) <= 2) /\
  (is_ascii (channel_no p) /\ length (channel_no p) <= 2) /\
  (is_ascii (cmd_code p) /\ length (cmd_code p) <= 8) /\
  (is_ascii (text_data p) /\ length (text_data p) <= length resp - 15) /\
  (forall e, error_code p = Some e -> is_ascii e /\ length e <= 2) /\
  exists frame,
    build_command_frame (unit_no p) (channel_no p) (cmd_code p) (text_data p)
    = inr frame.
Proof.
  intros E.
  assert (Hf : forall n m,
    is_ascii (decode_ascii_ignore (firstn n (skipn m resp))) /\
    length (decode_ascii_ignore (firstn n (skipn m resp))) <= n).
  { intros n m. split; [apply decode_ascii_ignore_is_ascii|].
    etransitivity; [apply decode_ascii_ignore_length | apply firstn_le_length]. }
  destruct (parse_response_frame_Some resp p E)
    as (H15 & -> & -> & -> & _ & _ & [(_ & _ & -> & ->) | (_ & -> & ->)]).
  - split; [apply Hf|]. split; [apply Hf|]. split; [apply Hf|].
    split; [split; [constructor | simpl; lia]|].
    split.
    + intros e Ee.
      replace e with (decode_ascii_ignore (firstn 2 (skipn 13 resp)))
        by congruence.
      apply Hf.
    + apply build_command_frame_total; try apply Hf; constructor.
  - unfold text_field.
    split; [apply Hf|]. split; [apply Hf|]. split; [apply Hf|].
    split; [apply Hf|].
    split.
    + intros e Ee. discriminate Ee.
    + apply build_command_frame_total; apply Hf.
Qed.

Lemma decoded_fields_are_ascii_and_bounded_witness :
  exists frame,
    build_command_frame (lit "01") (lit "02") (lit "GRO") (lit "+12.5") = inr frame.
Proof.
  apply (decoded_fields_are_ascii_and_bounded
    (x02 :: blit "01" ++ blit "02" ++ blit "GRO" ++ [xe9; xe9; xe9; xe9; xe9]
         ++ blit "+12" ++ [xe9] ++ blit ".5" ++ CRLF)
    {| header_byte := x02; header_str := lit "STX";
       unit_no := lit "01"; channel_no := lit "02"; cmd_code := lit "GRO";
       error_code := None; text_data := lit "+12.5" |}).
  reflexivity.
Defined.

(** X11.  A response made of ASCII bytes only, of at least 15 bytes and
    not headed by NAK, is decoded without loss: the fields have their full
    widths, and framing them again as a request reproduces the response
    with ENQ for its first byte and CR LF for its last two. *)
Theorem ascii_response_is_decoded_without_loss (resp : bytes) :
  ascii_bytes resp -> 15 <= length resp -> nth 0 resp x00 <> NAK ->
  exists p,
    parse_response_frame resp = Some p /\
    length (unit_no p) = 2 /\ length (channel_no p) = 2 /\
    length (cmd_code p) = 8 /\
    length (text_data p) = length resp - 15 /\
    build_command_frame (unit_no p) (channel_no p) (cmd_code p) (text_data p)
    = inr (ENQ :: firstn (length resp - 3) (skipn 1 resp) ++ CRLF).
Proof.
  intros Ha Hl Hh. eexists.
  split; [apply parse_response_frame_text; assumption|].
  cbn [unit_no channel_no cmd_code text_data]. unfold text_field.
  assert (Hd : forall n m, decode_ascii_ignore (firstn n (skipn m resp))
                           = map Byte.to_N (firstn n (skipn m resp)))
    by (intros; apply decode_ascii_bytes, Forall_firstn_skipn, Ha).
  assert (He : forall n m, encode_ascii (map Byte.to_N (firstn n (skipn m resp)))
                           = inr (firstn n (skipn m resp)))
    by (intros; apply encode_ascii_of_bytes, Forall_firstn_skipn, Ha).
  assert (Hn : forall n m, n + m <= length resp ->
                           length (firstn n (skipn m resp)) = n)
    by (intros; rewrite length_firstn, length_skipn; lia).
  rewrite !Hd, !length_map, !Hn by lia.
  repeat split.
  rewrite build_command_frame_eq, length_map, Hn by lia.
  change (8 <? 8) with false. cbv iota.
  change (repeat 95%N (8 - 8)) with (@nil N). rewrite app_nil_r.
  rewrite !He. cbn [rbind ok].
  do 2 f_equal.
  replace (length resp - 3) with (2 + (2 + (8 + (length resp - 15)))) by lia.
  rewrite !firstn_plus, !skipn_skipn, <- !app_assoc. reflexivity.
Qed.

Lemma ascii_response_is_decoded_without_loss_witness :
  exists p,
    parse_response_frame (x06 :: blit "0102GROSS___+12.5" ++ blit "zz") = Some p /\
    length (unit_no p) = 2 /\ length (channel_no p) = 2 /\
    length (cmd_code p) = 8 /\
    length (text_data p) = 5 /\
    build_command_frame (unit_no p) (channel_no p) (cmd_code p) (text_data p)
    = inr (ENQ :: blit "0102GROSS___+12.5" ++ CRLF).
Proof.
  apply (ascii_response_is_decoded_without_loss
           (x06 :: blit "0102GROSS___+12.5" ++ blit "zz")).
  - repeat constructor.
  - simpl. lia.
  - simpl. discriminate.
Defined.

(** ** The amount text *)

Lemma uint_chars_is_ascii (d : Decimal.uint) : is_ascii (uint_chars d).
Proof.
  induction d; simpl; constructor; solve [reflexivity | assumption].
Qed.

Lemma is_ascii_repeat_zero (n : nat) : is_ascii (repeat 48%N n).
Proof.
  induction n; simpl; constructor; [reflexivity | assumption].
Qed.

Lemma text_value_is_ascii (amount : pyfloat) : is_ascii (text_value amount).
Proof.
  unfold text_value, format_010_3f.
  apply is_ascii_app; [repeat constructor|].
  apply is_ascii_app; [destruct amount as [[|] ? ?|[|]|]; repeat constructor|].
  apply is_ascii_app; [apply is_ascii_repeat_zero|].
  destruct amount as [s m e|s|]; unfold fixed3_body; cbv zeta;
    [|repeat constructor ..].
  apply is_ascii_app; [apply uint_chars_is_ascii|].
  apply is_ascii_app; [repeat constructor|].
  apply is_ascii_app; [apply is_ascii_repeat_zero | apply uint_chars_is_ascii].
Qed.

(** ** Operations, step by step *)

Lemma not_accepted_parse_eq (resp : bytes) :
  not_accepted (parse_response_frame resp) = negb (accepted resp).
Proof.
  unfold accepted.
  destruct (Nat.leb_spec 15 (length resp)) as [H15|H15].
  - destruct (Byte.byte_eq_dec (nth 0 resp x00) NAK) as [Hh|Hh].
    + rewrite Hh. simpl.
      apply not_accepted_parse. right; right; assumption.
    + rewrite parse_response_frame_text by assumption. simpl.
      rewrite parse_header_NAK_eqb.
      destruct (Byte.eqb (nth 0 resp x00) NAK) eqn:E; [|reflexivity].
      apply Byte.byte_dec_bl in E. contradiction.
  - simpl. apply not_accepted_parse. right; left.
    apply parse_response_frame_None. left; assumption.
Qed.

Lemma accepted_parse (resp : bytes) :
  accepted resp = true ->
  exists p, parse_response_frame resp = Some p /\
            pystr_eqb (header_str p) (lit "NAK") = false /\
            text_data p = keep_ascii (text_field resp).
Proof.
  intros Ha. pose proof (not_accepted_parse_eq resp) as Hn.
  rewrite Ha in Hn. simpl in Hn.
  unfold accepted in Ha. apply andb_true_iff in Ha as [H15 Hh].
  apply Nat.leb_le in H15.
  assert (Hh' : nth 0 resp x00 <> NAK).
  { intros E. rewrite E in Hh. discriminate Hh. }
  rewrite parse_response_frame_text in * by assumption.
  eexists. split; [reflexivity|]. split; [exact Hn|].
  cbn [text_data]. apply decode_ascii_ignore_keep.
Qed.

Lemma is_ascii_lit_FF : is_ascii (lit "FF______").
Proof. repeat constructor. Qed.

Lemma is_ascii_lit_CFW : is_ascii (lit "CFW_____").
Proof. repeat constructor. Qed.

Section Runs.
Context {port : Type} `{Serial port} `{Builtins}.

Lemma send_command_run
    (u c k t : pystr) (w : world port) (frame resp : bytes) (p' : port) :
  build_command_frame u c k t = inr frame ->
  ser_read_until CRLF (ser_write frame (ser w)) = (resp, p') ->
  exists out,
    send_command u c k t w =
    (inr (parse_response_frame resp),
     mkWorld p' (sent w ++ [frame]) (stdout w ++ out)).
Proof.
  intros E Hr. rewrite send_command_eq, E, Hr.
  destruct resp as [|b resp]; [eexists; reflexivity|].
  destruct (parse_response_frame (b :: resp)); eexists; reflexivity.
Qed.

Lemma discharge_all_run
    (u c : pystr) (w : world port) (frame resp : bytes) (p' : port) :
  build_command_frame u c (lit "FDIS____") [] = inr frame ->
  ser_read_until CRLF (ser_write frame (ser w)) = (resp, p') ->
  exists out,
    discharge_all u c w =
    (inr (accepted resp), mkWorld p' (sent w ++ [frame]) (stdout w ++ out)).
Proof.
  intros E Hr.
  destruct (send_command_run u c _ _ w frame resp p' E Hr) as [out Hs].
  unfold discharge_all, bind. rewrite Hs, not_accepted_parse_eq.
  destruct (accepted resp); simpl; unfold print, ret; simpl;
    rewrite <- app_assoc; eexists; reflexivity.
Qed.

Lemma get_current_weight_run
    (u c : pystr) (w : world port) (frame resp : bytes) (p' : port) :
  build_command_frame u c (lit "GROSS___") [] = inr frame ->
  ser_read_until CRLF (ser_write frame (ser w)) = (resp, p') ->
  exists out,
    get_current_weight u c w =
    (inr (if accepted resp then float (keep_ascii (text_field resp)) else None),
     mkWorld p' (sent w ++ [frame]) (stdout w ++ out)).
Proof.
  intros E Hr.
  destruct (send_command_run u c _ _ w frame resp p' E Hr) as [out Hs].
  unfold get_current_weight, bind. rewrite Hs.
  destruct (accepted resp) eqn:Ha.
  - destruct (accepted_parse resp Ha) as (p & -> & -> & ->).
    eexists; reflexivity.
  - pose proof (not_accepted_parse_eq resp) as Hn. rewrite Ha in Hn.
    unfold not_accepted in Hn.
    destruct (parse_response_frame resp) as [p|]; [simpl in Hn; rewrite Hn|];
      eexists; reflexivity.
Qed.


Lemma cut_out_amount_run_accepted
    (u c : pystr) (amount : pyfloat) (w : world port)
    (ff cfw r1 r2 : bytes) (p1 p2 : port) :
  build_command_frame u c (lit "FF______") (text_value amount) = inr ff ->
  build_command_frame u c (lit "CFW_____") [] = inr cfw ->
  ser_read_until CRLF (ser_write ff (ser w)) = (r1, p1) ->
  accepted r1 = true ->
  ser_read_until CRLF (ser_write cfw p1) = (r2, p2) ->
  exists out,
    cut_out_amount u c amount w =
    (inr (accepted r2), mkWorld p2 (sent w ++ [ff; cfw]) (stdout w ++ out)).
Proof.
  intros Eff Ecfw Hr1 Ha Hr2.
  destruct (send_command_run u c _ _ w ff r1 p1 Eff Hr1) as [out1 Hs1].
  destruct (send_command_run u c _ _
              (mkWorld p1 (sent w ++ [ff]) (stdout w ++ out1)) cfw r2 p2
              Ecfw Hr2) as [out2 Hs2].
  unfold cut_out_amount, bind.
  rewrite Hs1, not_accepted_parse_eq, Ha. cbn [negb].
  rewrite Hs2, not_accepted_parse_eq. cbn [sent stdout].
  rewrite <- !app_assoc.
  destruct (accepted r2); simpl; rewrite <- !app_assoc; eexists; reflexivity.
Qed.

End Runs.

Lemma accepted_true_iff (resp : bytes) :
  accepted resp = true <-> 15 <= length resp /\ nth 0 resp x00 <> NAK.
Proof.
  unfold accepted. rewrite andb_true_iff, Nat.leb_le, negb_true_iff.
  split; intros [Hl Hh]; (split; [assumption|]).
  - intros E. rewrite E in Hh. discriminate Hh.
  - destruct (Byte.eqb (nth 0 resp x00) NAK) eqn:E; [|reflexivity].
    apply Byte.byte_dec_bl in E. contradiction.
Qed.

Lemma accepted_false_iff (resp : bytes) :
  accepted resp = false <-> length resp < 15 \/ nth 0 resp x00 = NAK.
Proof.
  rewrite <- not_true_iff_false, accepted_true_iff.
  split.
  - intros Hx.
    destruct (Nat.lt_ge_cases (length resp) 15) as [Hl|Hl]; [left; exact Hl|].
    destruct (Byte.byte_eq_dec (nth 0 resp x00) NAK) as [Hh|Hh];
      [right; exact Hh|].
    exfalso. apply Hx. split; assumption.
  - intros [Hl|Hh] [Hl' Hh']; [lia | contradiction].
Qed.

Lemma built_frame_accepted (u c k t : pystr) (frame : bytes) :
  4 <= length u + length c ->
  build_command_frame u c k t = inr frame ->
  accepted frame = true.
Proof.
  intros L4 E.
  destruct (build_command_frame_inr _ _ _ _ _ E)
    as [Lk (ub & cb & kb & tb & Eu & Ec & Ek & Et & ->)].
  pose proof (encode_ascii_length _ _ Eu) as Hu.
  pose proof (encode_ascii_length _ _ Ec) as Hc.
  pose proof (encode_ascii_length _ _ Ek) as Hk.
  rewrite length_app, repeat_length in Hk.
  replace (length k + (8 - length k)) with 8 in Hk by lia.
  apply accepted_true_iff. split; [|simpl; discriminate].
  simpl. rewrite !length_app, Hu, Hc, Hk. simpl. lia.
Qed.

Section OperationResults.
Context {port : Type} `{Serial port} `{Builtins}.

(** X13.  When the request is built, [send_command] writes exactly that
    one frame, reads once, and returns the decoding of the bytes read: the
    separate test for an empty read does not change the value returned. *)
Theorem send_command_returns_decoded_bytes
    (u c k t : pystr) (w : world port) (frame resp : bytes) (p' : port) :
  build_command_frame u c k t = inr frame ->
  ser_read_until CRLF (ser_write frame (ser w)) = (resp, p') ->
  fst (send_command u c k t w) = inr (parse_response_frame resp) /\
  ser (snd (send_command u c k t w)) = p' /\
  sent (snd (send_command u c k t w)) = sent w ++ [frame].
Proof.
  intros E Hr.
  destruct (send_command_run u c k t w frame resp p' E Hr) as [out ->].
  repeat split.
Qed.

(** X14.  [discharge_all] returns [True] exactly when the bytes read are
    at least 15 and do not start with NAK, whatever else they hold: the
    header need not be STX or ACK and the response need not name the same
    unit, channel or command.  Either way the FDIS____ request is the one
    frame written. *)
Theorem discharge_all_accepts_iff
    (u c : pystr) (w : world port) (frame resp : bytes) (p' : port) :
  build_command_frame u c (lit "FDIS____") [] = inr frame ->
  ser_read_until CRLF (ser_write frame (ser w)) = (resp, p') ->
  (fst (discharge_all u c w) = inr true <->
   15 <= length resp /\ nth 0 resp x00 <> NAK) /\
  (fst (discharge_all u c w) = inr false <->
   length resp < 15 \/ nth 0 resp x00 = NAK) /\
  sent (snd (discharge_all u c w)) = sent w ++ [frame].
Proof.
  intros E Hr.
  destruct (discharge_all_run u c w frame resp p' E Hr) as [out ->].
  cbn [fst snd sent].
  rewrite <- accepted_true_iff, <- accepted_false_iff.
  repeat split; intros Hx; congruence.
Qed.

(** X15.  [get_current_weight] hands to [float] the text field of the
    bytes read, with the bytes outside ASCII dropped, whenever these bytes
    are at least 15 and do not start with NAK, and returns what [float]
    gives; otherwise it returns [None] without calling [float] on
    anything. *)
Theorem get_current_weight_reads_text_field
    (u c : pystr) (w : world port) (frame resp : bytes) (p' : port) :
  build_command_frame u c (lit "GROSS___") [] = inr frame ->
  ser_read_until CRLF (ser_write frame (ser w)) = (resp, p') ->
  (15 <= length resp -> nth 0 resp x00 <> NAK ->
   fst (get_current_weight u c w) = inr (float (keep_ascii (text_field resp)))) /\
  (length resp < 15 \/ nth 0 resp x00 = NAK ->
   fst (get_current_weight u c w) = inr None) /\
  sent (snd (get_current_weight u c w)) = sent w ++ [frame].
Proof.
  intros E Hr.
  destruct (get_current_weight_run u c w frame resp p' E Hr) as [out ->].
  cbn [fst snd sent].
  split; [|split; [|reflexivity]].
  - intros Hl Hh.
    rewrite (proj2 (accepted_true_iff resp) (conj Hl Hh)). reflexivity.
  - intros Hx. rewrite (proj2 (accepted_false_iff resp) Hx). reflexivity.
Qed.

(** X16.  Once the FF______ step is accepted, [cut_out_amount] writes the
    CFW_____ request next and returns [True] exactly when the bytes read
    after it are at least 15 and do not start with NAK.  When that second
    step fails the result is [False] although the amount has already been
    written to the device. *)
Theorem cut_out_amount_second_step
    (u c : pystr) (amount : pyfloat) (w : world port)
    (ff cfw r1 r2 : bytes) (p1 p2 : port) :
  build_command_frame u c (lit "FF______") (text_value amount) = inr ff ->
  build_command_frame u c (lit "CFW_____") [] = inr cfw ->
  ser_read_until CRLF (ser_write ff (ser w)) = (r1, p1) ->
  15 <= length r1 -> nth 0 r1 x00 <> NAK ->
  ser_read_until CRLF (ser_write cfw p1) = (r2, p2) ->
  (fst (cut_out_amount u c amount w) = inr true <->
   15 <= length r2 /\ nth 0 r2 x00 <> NAK) /\
  (fst (cut_out_amount u c amount w) = inr false <->
   length r2 < 15 \/ nth 0 r2 x00 = NAK) /\
  sent (snd (cut_out_amount u c amount w)) = sent w ++ [ff; cfw] /\
  ser (snd (cut_out_amount u c amount w)) = p2.
Proof.
  intros Eff Ecfw Hr1 Hl Hh Hr2.
  destruct (cut_out_amount_run_accepted u c amount w ff cfw r1 r2 p1 p2
              Eff Ecfw Hr1 (proj2 (accepted_true_iff r1) (conj Hl Hh)) Hr2)
    as [out ->].
  cbn [fst snd sent ser].
  rewrite <- accepted_true_iff, <- accepted_false_iff.
  repeat split; intros Hx; congruence.
Qed.

(** X18.  With an address field that is not ASCII each of the three
    operations raises the encoding error before anything is written, read
    or printed; in particular [cut_out_amount] never raises between its
    two steps. *)
Theorem operations_raise_on_non_ascii_address
    (u c : pystr) (amount : pyfloat) (w : world port) :
  has_non_ascii u \/ has_non_ascii c ->
  get_current_weight u c w = (inl UnicodeEncodeError, w) /\
  cut_out_amount u c amount w = (inl UnicodeEncodeError, w) /\
  discharge_all u c w = (inl UnicodeEncodeError, w).
Proof.
  intros Hn.
  assert (Hb : forall k t, length k <= 8 ->
    send_command u c k t w = (inl UnicodeEncodeError, w)).
  { intros k t Lk. apply send_command_raises.
    apply build_command_frame_non_ascii; [assumption | tauto]. }
  unfold get_current_weight, cut_out_amount, discharge_all, bind.
  rewrite !Hb by (simpl; lia). repeat split.
Qed.

(** X19.  The response is never matched against the request.  On a port
    that echoes each request back, with address fields of at least 4
    characters together, [discharge_all] and [cut_out_amount] return
    [True]: the ENQ-headed echo counts as an accepted response. *)
Theorem echo_is_accepted
    (u c : pystr) (amount : pyfloat) (w : world port) :
  (forall frame p, fst (ser_read_until CRLF (ser_write frame p)) = frame) ->
  is_ascii u -> is_ascii c -> 4 <= length u + length c ->
  fst (discharge_all u c w) = inr true /\
  fst (cut_out_amount u c amount w) = inr true.
Proof.
  intros Hecho Au Ac L4. split.
  - destruct (build_command_frame_total u c (lit "FDIS____") [])
      as [frame E]; try assumption;
      [apply is_ascii_lit_FDIS | constructor | simpl; lia |].
    destruct (ser_read_until CRLF (ser_write frame (ser w))) as [resp p'] eqn:Hr.
    pose proof (Hecho frame (ser w)) as He. rewrite Hr in He. simpl in He. subst resp.
    destruct (discharge_all_run u c w frame frame p' E Hr) as [out ->].
    cbn [fst]. rewrite (built_frame_accepted _ _ _ _ _ L4 E). reflexivity.
  - destruct (build_command_frame_total u c (lit "FF______") (text_value amount))
      as [ff Eff]; try assumption;
      [apply is_ascii_lit_FF | apply text_value_is_ascii | simpl; lia |].
    destruct (build_command_frame_total u c (lit "CFW_____") [])
      as [cfw Ecfw]; try assumption;
      [apply is_ascii_lit_CFW | constructor | simpl; lia |].
    destruct (ser_read_until CRLF (ser_write ff (ser w))) as [r1 p1] eqn:Hr1.
    pose proof (Hecho ff (ser w)) as He1. rewrite Hr1 in He1. simpl in He1. subst r1.
    destruct (ser_read_until CRLF (ser_write cfw p1)) as [r2 p2] eqn:Hr2.
    pose proof (Hecho cfw p1) as He2. rewrite Hr2 in He2. simpl in He2. subst r2.
    destruct (cut_out_amount_run_accepted u c amount w ff cfw ff cfw p1 p2
                Eff Ecfw Hr1 (built_frame_accepted _ _ _ _ _ L4 Eff) Hr2)
      as [out ->].
    cbn [fst]. rewrite (built_frame_accepted _ _ _ _ _ L4 Ecfw). reflexivity.
Qed.

End OperationResults.

Lemma send_command_returns_decoded_bytes_witness :
  fst (send_command (lit "01") (lit "02") (lit "GROSS") []
         (fresh [x06 :: blit "0102GROSS___1.5" ++ CRLF]))
  = inr (parse_response_frame (x06 :: blit "0102GROSS___1.5" ++ CRLF)) /\
  ser (snd (send_command (lit "01") (lit "02") (lit "GROSS") []
              (fresh [x06 :: blit "0102GROSS___1.5" ++ CRLF]))) = [] /\
  sent (snd (send_command (lit "01") (lit "02") (lit "GROSS") []
               (fresh [x06 :: blit "0102GROSS___1.5" ++ CRLF])))
  = [] ++ [ENQ :: blit "0102GROSS___" ++ CRLF].
Proof.
  apply (send_command_returns_decoded_bytes
           (lit "01") (lit "02") (lit "GROSS") []
           (fresh [x06 :: blit "0102GROSS___1.5" ++ CRLF])
           (ENQ :: blit "0102GROSS___" ++ CRLF)
           (x06 :: blit "0102GROSS___1.5" ++ CRLF) []);
    reflexivity.
Defined.

(** A response with an unknown header that names another unit and
    another command is accepted all the same. *)
Lemma discharge_all_accepts_iff_witness :
  fst (discharge_all (lit "01") (lit "02")
         (fresh [blit "Z9999CFW_____" ++ CRLF])) = inr true.
Proof.
  destruct (@discharge_all_accepts_iff script scripted_serial
              (lit "01") (lit "02")
              (fresh [blit "Z9999CFW_____" ++ CRLF])
              (ENQ :: blit "0102FDIS____" ++ CRLF)
              (blit "Z9999CFW_____" ++ CRLF) [] eq_refl eq_refl)
    as [[_ Ht] _].
  apply Ht. split; [simpl; lia | simpl; discriminate].
Defined.

Lemma get_current_weight_reads_text_field_witness :
  fst (@get_current_weight script scripted_serial float_1_5
         (lit "01") (lit "02")
         (fresh [x02 :: blit "0102GROSS___1" ++ [xe9] ++ blit ".5" ++ CRLF]))
  = inr (Some (Finite false 3 (-1))) /\
  fst (@get_current_weight script scripted_serial float_1_5
         (lit "01") (lit "02")
         (fresh [NAK :: blit "0102GROSS___E7" ++ CRLF]))
  = inr None.
Proof.
  split.
  - destruct (@get_current_weight_reads_text_field script scripted_serial float_1_5
                (lit "01") (lit "02")
                (fresh [x02 :: blit "0102GROSS___1" ++ [xe9] ++ blit ".5" ++ CRLF])
                (ENQ :: blit "0102GROSS___" ++ CRLF)
                (x02 :: blit "0102GROSS___1" ++ [xe9] ++ blit ".5" ++ CRLF) []
                eq_refl eq_refl) as [Ht _].
    apply Ht; [simpl; lia | simpl; discriminate].
  - destruct (@get_current_weight_reads_text_field script scripted_serial float_1_5
                (lit "01") (lit "02")
                (fresh [NAK :: blit "0102GROSS___E7" ++ CRLF])
                (ENQ :: blit "0102GROSS___" ++ CRLF)
                (NAK :: blit "0102GROSS___E7" ++ CRLF) []
                eq_refl eq_refl) as [_ [Hf _]].
    apply Hf. right. reflexivity.
Defined.

(** The FF______ step is acknowledged, the CFW_____ step is refused: the
    result is [False] and both frames are on the wire. *)
Lemma cut_out_amount_second_step_witness :
  fst (cut_out_amount (lit "01") (lit "02") f0_5
         (fresh [x06 :: blit "0102FF______" ++ CRLF;
                 NAK :: blit "0102CFW_____E3" ++ CRLF])) = inr false /\
  sent (snd (cut_out_amount (lit "01") (lit "02") f0_5
         (fresh [x06 :: blit "0102FF______" ++ CRLF;
                 NAK :: blit "0102CFW_____E3" ++ CRLF])))
  = [ENQ :: blit "0102FF______+000000.500" ++ CRLF;
     ENQ :: blit "0102CFW_____" ++ CRLF].
Proof.
  destruct (@cut_out_amount_second_step script scripted_serial
              (lit "01") (lit "02") f0_5
              (fresh [x06 :: blit "0102FF______" ++ CRLF;
                      NAK :: blit "0102CFW_____E3" ++ CRLF])
              (ENQ :: blit "0102FF______+000000.500" ++ CRLF)
              (ENQ :: blit "0102CFW_____" ++ CRLF)
              (x06 :: blit "0102FF______" ++ CRLF)
              (NAK :: blit "0102CFW_____E3" ++ CRLF)
              [NAK :: blit "0102CFW_____E3" ++ CRLF] [])
    as (_ & [_ Hf] & Hs & _).
  - reflexivity.
  - reflexivity.
  - reflexivity.
  - simpl. lia.
  - simpl. discriminate.
  - reflexivity.
  - split; [apply Hf; right; reflexivity | exact Hs].
Defined.

Lemma operations_raise_on_non_ascii_address_witness :
  @get_current_weight script scripted_serial no_float
    (lit "01") [233%N; 50%N] (fresh [CRLF]) = (inl UnicodeEncodeError, fresh [CRLF]) /\
  cut_out_amount (lit "01") [233%N; 50%N] f120 (fresh [CRLF])
    = (inl UnicodeEncodeError, fresh [CRLF]) /\
  discharge_all (lit "01") [233%N; 50%N] (fresh [CRLF])
    = (inl UnicodeEncodeError, fresh [CRLF]).
Proof.
  apply (@operations_raise_on_non_ascii_address script scripted_serial no_float
           (lit "01") [233%N; 50%N] f120 (fresh [CRLF])).
  right. apply Exists_cons_hd. vm_compute. discriminate.
Defined.

Lemma echo_is_accepted_witness :
  fst (@discharge_all bytes loopback_serial (lit "01") (lit "02")
         (mkWorld [] [] [])) = inr true /\
  fst (@cut_out_amount bytes loopback_serial (lit "01") (lit "02") f120
         (mkWorld [] [] [])) = inr true.
Proof.
  apply (@echo_is_accepted bytes loopback_serial
           (lit "01") (lit "02") f120 (mkWorld [] [] [])).
  - intros frame p. reflexivity.
  - repeat constructor.
  - repeat constructor.
  - simpl. lia.
Defined.

(** ** The amount text reads back as the rounded amount *)






Lemma digits_value_app (a b : pystr) :
  length b = 3 ->
  digits_value (a ++ b) = (1000 * digits_value a + digits_value b)%N.
Proof.
  intros Hb. destruct b as [|x [|y [|z [|? ?]]]]; try discriminate Hb.
  unfold digits_value. rewrite fold_left_app. cbn [fold_left].
  assert (Harith : forall v p q r : N,
    (10 * (10 * (10 * v + p) + q) + r
     = 1000 * v + (10 * (10 * (10 * 0 + p) + q) + r))%N) by (intros; lia).
  apply Harith.
Qed.






(** ** The controller's own exceptions *)

Section OwnExceptions.
Context {port : Type} `{Serial port} `{Builtins}.


End OwnExceptions.

